(** * DiaTrack: the diabetes risk-prediction engine

    A shallow embedding of [RiskPredictionService]
    (src/utils/databaseCheck.ts, the risk prediction service part) and the
    properties its specification states about it.

    A JavaScript [number] is an IEEE 754 binary64 value, which is what Rocq's
    primitive [float] is, so every number of the service is a [float]: the
    literals of the source are the literals of this file, [+], [-], [*], [/]
    round as they do in the engine, and NaN and the infinities are ordinary
    inputs. *)

From Stdlib Require Import Floats ZArith Bool List String Ascii Lia Permutation.
Import ListNotations.

Set Warnings "-inexact-float".

(** ** JavaScript numbers and the few built-ins the service uses *)

Declare Scope js_scope.
Delimit Scope js_scope with js.

Module JS.

Definition number := float.

(** [a >= b], [a > b], [a < b] and [a === b] on numbers: IEEE comparisons,
    all false as soon as one side is NaN. *)
Definition ge (a b : number) : bool := PrimFloat.leb b a.
Definition gt (a b : number) : bool := PrimFloat.ltb b a.
Definition lt (a b : number) : bool := PrimFloat.ltb a b.
Definition strict_eq (a b : number) : bool := PrimFloat.eqb a b.

(** ToBoolean on a number: false for +0, -0 and NaN. *)
Definition truthy (x : number) : bool := negb (is_nan x || is_zero x).

(** [v || 0] where [v] is a property that may be absent ([None] stands for
    [undefined]). *)
Definition or_zero (v : option number) : number :=
  match v with
  | Some x => if truthy x then x else PrimFloat.zero
  | None => PrimFloat.zero
  end.

(** [Math.min] and [Math.max] of two arguments: NaN is contagious and -0 is
    below +0. *)
Definition Math_min (a b : number) : number :=
  if is_nan a || is_nan b then nan
  else if PrimFloat.ltb a b then a
  else if PrimFloat.ltb b a then b
  else if get_sign a then a else b.

Definition Math_max (a b : number) : number :=
  if is_nan a || is_nan b then nan
  else if PrimFloat.ltb a b then b
  else if PrimFloat.ltb b a then a
  else if get_sign a then b else a.

(** [s.includes(sub)] *)
Definition includes (s sub : string) : bool :=
  match String.index 0 sub s with
  | Some _ => true
  | None => false
  end.

(** [s.trim()], for the white space an ASCII string can hold. *)
Definition is_white_space (c : ascii) : bool :=
  match c with
  | " "%char | "009"%char | "010"%char | "011"%char | "012"%char | "013"%char => true
  | _ => false
  end.

Fixpoint trimStart (s : string) : string :=
  match s with
  | EmptyString => EmptyString
  | String c rest => if is_white_space c then trimStart rest else s
  end.

Fixpoint trimEnd (s : string) : string :=
  match s with
  | EmptyString => EmptyString
  | String c rest =>
      match trimEnd rest with
      | EmptyString => if is_white_space c then EmptyString else String c EmptyString
      | kept => String c kept
      end
  end.

Definition trim (s : string) : string := trimEnd (trimStart s).

(** [Array.prototype.sort(cmp)].  The language requires the sort to be
    stable; [x] moves behind [y] only when [cmp x y > 0] (a NaN from the
    comparator counts as 0).  Insertion from the right is the stable sort
    written out. *)
Fixpoint sort_insert {A : Type} (cmp : A -> A -> number) (x : A) (l : list A) : list A :=
  match l with
  | [] => [x]
  | y :: rest =>
      if PrimFloat.ltb PrimFloat.zero (cmp x y) then y :: sort_insert cmp x rest
      else x :: y :: rest
  end.

Definition Array_sort {A : Type} (cmp : A -> A -> number) (l : list A) : list A :=
  fold_right (sort_insert cmp) [] l.

(** What a call does: it returns a value or throws. *)
Inductive completion (A : Type) : Type :=
| Returned (a : A)
| Thrown (message : string).
Arguments Returned {A} a.
Arguments Thrown {A} message.

Definition bind {A B : Type} (c : completion A) (k : A -> completion B) : completion B :=
  match c with
  | Returned a => k a
  | Thrown m => Thrown m
  end.

(** [try { body } catch (error) { handler }] *)
Definition try_catch {A : Type} (body : completion A) (handler : string -> completion A)
  : completion A :=
  match body with
  | Returned a => Returned a
  | Thrown m => handler m
  end.

End JS.

Notation "a >= b" := (JS.ge a b) : js_scope.
Notation "a > b" := (JS.gt a b) : js_scope.
Notation "a < b" := (JS.lt a b) : js_scope.
Notation "a === b" := (JS.strict_eq a b) (at level 70, no associativity) : js_scope.
Notation "a + b" := (PrimFloat.add a b) : js_scope.
Notation "a - b" := (PrimFloat.sub a b) : js_scope.
Notation "a * b" := (PrimFloat.mul a b) : js_scope.
Notation "a / b" := (PrimFloat.div a b) : js_scope.
Notation "x '<-' c ';;' k" := (JS.bind c (fun x => k))
  (at level 61, c at next level, right associativity) : js_scope.

Open Scope string_scope.
Open Scope float_scope.
Open Scope js_scope.

(** ** Data model *)

Record RiskPredictionInput : Type := {
  patient_id : string;
  age : JS.number;
  gender : JS.number;            (* 0 for female, 1 for male *)
  bmi : JS.number;
  hypertension : JS.number;      (* 0 or 1 *)
  heart_disease : JS.number;     (* 0 or 1 *)
  smoking_history : string;
  HbA1c_level : JS.number;
  blood_glucose_level : JS.number
}.

Inductive PredictionLabel : Type := Positive | Negative.

Inductive RiskLevel : Type := Low | Moderate | High | Critical.

Record ShapValues : Type := {
  shap_bmi : JS.number;
  shap_hbA1c_level : JS.number;
  shap_blood_glucose_level : JS.number;
  shap_age : JS.number;
  shap_hypertension : JS.number;
  shap_heart_disease : JS.number;
  shap_smoking_history : JS.number;
  shap_gender : JS.number
}.

Record FeatureContribution : Type := {
  name : string;
  contribution : JS.number;
  description : string;
  risk_factor : bool
}.

Record ConfidenceInterval : Type := {
  lower : JS.number;
  upper : JS.number
}.

Record RiskPredictionResult : Type := {
  prediction_result : PredictionLabel;
  confidence_score : JS.number;
  risk_level : RiskLevel;
  probability : JS.number;
  recommendations : string;
  shap_values : ShapValues;
  feature_contributions : list FeatureContribution;
  flagged_conditions : list string;
  confidence_interval : ConfidenceInterval
}.

(** ** Risk thresholds based on medical guidelines *)

Module RISK_THRESHOLDS.

Module HbA1c.
Definition normal : JS.number := 5.7.
Definition prediabetes : JS.number := 6.5.
Definition diabetes : JS.number := 6.5.
Definition highRisk : JS.number := 6.9.
End HbA1c.

Module bloodGlucose.
Definition normal : JS.number := 100.
Definition prediabetes : JS.number := 126.
Definition diabetes : JS.number := 200.
Definition moderateRisk : JS.number := 120.
End bloodGlucose.

Module bmi.
Definition normal : JS.number := 25.
Definition overweight : JS.number := 30.
Definition obese : JS.number := 35.
End bmi.

Module age.
Definition increased_risk : JS.number := 45.
End age.

End RISK_THRESHOLDS.

(** ** shouldForcePositive *)

Definition shouldForcePositive (input : RiskPredictionInput) : bool :=
  if (HbA1c_level input > RISK_THRESHOLDS.HbA1c.highRisk)
     && (blood_glucose_level input >= RISK_THRESHOLDS.bloodGlucose.moderateRisk)
  then true
  else if (blood_glucose_level input >= RISK_THRESHOLDS.bloodGlucose.diabetes)
          && (HbA1c_level input >= 5.9)
  then true
  else if (HbA1c_level input >= RISK_THRESHOLDS.HbA1c.diabetes)
          || (blood_glucose_level input >= RISK_THRESHOLDS.bloodGlucose.prediabetes)
  then true
  else false.

(** ** calculateBaseRiskScore (Stage A)

    The function threads [score] through one conditional block per feature;
    each block is a step here, in the order of the source. *)

Definition addHbA1c (input : RiskPredictionInput) (score : JS.number) : JS.number :=
  if HbA1c_level input >= RISK_THRESHOLDS.HbA1c.diabetes then score + 0.35
  else if HbA1c_level input > RISK_THRESHOLDS.HbA1c.highRisk then score + 0.30
  else if HbA1c_level input >= RISK_THRESHOLDS.HbA1c.normal then score + 0.15
  else score.

Definition addBloodGlucose (input : RiskPredictionInput) (score : JS.number) : JS.number :=
  if blood_glucose_level input >= RISK_THRESHOLDS.bloodGlucose.diabetes then score + 0.25
  else if blood_glucose_level input >= RISK_THRESHOLDS.bloodGlucose.prediabetes then score + 0.20
  else if blood_glucose_level input >= RISK_THRESHOLDS.bloodGlucose.moderateRisk then score + 0.12
  else if blood_glucose_level input >= RISK_THRESHOLDS.bloodGlucose.normal then score + 0.10
  else score.

Definition addBmi (input : RiskPredictionInput) (score : JS.number) : JS.number :=
  if bmi input >= RISK_THRESHOLDS.bmi.obese then score + 0.20
  else if bmi input >= RISK_THRESHOLDS.bmi.overweight then score + 0.15
  else if bmi input >= RISK_THRESHOLDS.bmi.normal then score + 0.05
  else score.

Definition addAge (input : RiskPredictionInput) (score : JS.number) : JS.number :=
  if age input >= RISK_THRESHOLDS.age.increased_risk then score + 0.10 else score.

Definition addHypertension (input : RiskPredictionInput) (score : JS.number) : JS.number :=
  if JS.truthy (hypertension input) then score + 0.15 else score.

Definition addHeartDisease (input : RiskPredictionInput) (score : JS.number) : JS.number :=
  if JS.truthy (heart_disease input) then score + 0.15 else score.

Definition addSmoking (input : RiskPredictionInput) (score : JS.number) : JS.number :=
  if String.eqb (smoking_history input) "current" then score + 0.10
  else if String.eqb (smoking_history input) "former" then score + 0.05
  else score.

Definition addGender (input : RiskPredictionInput) (score : JS.number) : JS.number :=
  if gender input === 1 then score + 0.05 else score.

Definition calculateBaseRiskScore (input : RiskPredictionInput) : JS.number :=
  let score := 0 in
  let score := addHbA1c input score in
  let score := addBloodGlucose input score in
  let score := addBmi input score in
  let score := addAge input score in
  let score := addHypertension input score in
  let score := addHeartDisease input score in
  let score := addSmoking input score in
  let score := addGender input score in
  JS.Math_min score 1.0.

(** ** applyRiskModifiers (Stage B) *)

Definition applyRiskModifiers (baseScore : JS.number) (input : RiskPredictionInput)
  : JS.number :=
  let modifiedScore := baseScore in
  let modifiedScore :=
    if (blood_glucose_level input > 200) && (HbA1c_level input >= 6.5)
    then modifiedScore + 0.20 else modifiedScore in
  let modifiedScore :=
    if (HbA1c_level input >= 6.0) && (bmi input >= 30)
    then modifiedScore + 0.15 else modifiedScore in
  let modifiedScore :=
    if (age input >= 45) && (HbA1c_level input >= 5.7)
    then modifiedScore + 0.10 else modifiedScore in
  let modifiedScore :=
    if JS.truthy (hypertension input) && JS.truthy (heart_disease input)
    then modifiedScore + 0.10 else modifiedScore in
  JS.Math_min modifiedScore 1.0.

(** ** calculateConfidenceScore (Stage C) *)

Definition calculateConfidenceScore (input : RiskPredictionInput) : JS.number :=
  let confidence := 0.8 in
  let confidence :=
    if (HbA1c_level input > 15) || (HbA1c_level input < 3)
    then confidence - 0.2 else confidence in
  let confidence :=
    if (blood_glucose_level input > 600) || (blood_glucose_level input < 50)
    then confidence - 0.2 else confidence in
  let confidence :=
    if (bmi input > 60) || (bmi input < 15)
    then confidence - 0.1 else confidence in
  let confidence :=
    if (age input > 100) || (age input < 10)
    then confidence - 0.1 else confidence in
  let confidence :=
    if (HbA1c_level input >= 6.5) && (blood_glucose_level input >= 200)
    then confidence + 0.1 else confidence in
  JS.Math_max 0.5 (JS.Math_min confidence 1.0).

(** ** determineRiskLevel *)

Definition determineRiskLevel (score : JS.number) : RiskLevel :=
  if score >= 0.8 then Critical
  else if score >= 0.6 then High
  else if score >= 0.4 then Moderate
  else Low.

(** ** calculateSHAPValues (Stage D)

    The local constants of the function, one per feature, then their total
    and the normalised record. *)

Definition hba1cContribution (input : RiskPredictionInput) : JS.number :=
  if HbA1c_level input >= RISK_THRESHOLDS.HbA1c.diabetes then 0.35
  else if HbA1c_level input >= RISK_THRESHOLDS.HbA1c.prediabetes then 0.25
  else if HbA1c_level input >= RISK_THRESHOLDS.HbA1c.normal then 0.15
  else 0.

Definition glucoseContribution (input : RiskPredictionInput) : JS.number :=
  if blood_glucose_level input >= RISK_THRESHOLDS.bloodGlucose.diabetes then 0.25
  else if blood_glucose_level input >= RISK_THRESHOLDS.bloodGlucose.prediabetes then 0.20
  else if blood_glucose_level input >= RISK_THRESHOLDS.bloodGlucose.normal then 0.10
  else 0.

Definition bmiContribution (input : RiskPredictionInput) : JS.number :=
  if bmi input >= RISK_THRESHOLDS.bmi.obese then 0.20
  else if bmi input >= RISK_THRESHOLDS.bmi.overweight then 0.15
  else if bmi input >= RISK_THRESHOLDS.bmi.normal then 0.05
  else 0.

Definition ageContribution (input : RiskPredictionInput) : JS.number :=
  if age input >= RISK_THRESHOLDS.age.increased_risk then 0.10 else 0.

Definition hypertensionContribution (input : RiskPredictionInput) : JS.number :=
  if JS.truthy (hypertension input) then 0.15 else 0.

Definition heartDiseaseContribution (input : RiskPredictionInput) : JS.number :=
  if JS.truthy (heart_disease input) then 0.15 else 0.

Definition smokingContribution (input : RiskPredictionInput) : JS.number :=
  if String.eqb (smoking_history input) "current" then 0.10
  else if String.eqb (smoking_history input) "former" then 0.05
  else 0.

Definition genderContribution (input : RiskPredictionInput) : JS.number :=
  if gender input === 1 then 0.05 else 0.

Definition totalContribution (input : RiskPredictionInput) : JS.number :=
  hba1cContribution input + glucoseContribution input + bmiContribution input
  + ageContribution input + hypertensionContribution input
  + heartDiseaseContribution input + smokingContribution input
  + genderContribution input.

Definition zeroShapValues : ShapValues :=
  {| shap_bmi := 0; shap_hbA1c_level := 0; shap_blood_glucose_level := 0;
     shap_age := 0; shap_hypertension := 0; shap_heart_disease := 0;
     shap_smoking_history := 0; shap_gender := 0 |}.

Definition calculateSHAPValues (input : RiskPredictionInput) : ShapValues :=
  let totalRisk := calculateBaseRiskScore input in
  if totalRisk === 0 then zeroShapValues
  else if totalContribution input === 0 then zeroShapValues
  else
    {| shap_bmi := bmiContribution input / totalContribution input;
       shap_hbA1c_level := hba1cContribution input / totalContribution input;
       shap_blood_glucose_level := glucoseContribution input / totalContribution input;
       shap_age := ageContribution input / totalContribution input;
       shap_hypertension := hypertensionContribution input / totalContribution input;
       shap_heart_disease := heartDiseaseContribution input / totalContribution input;
       shap_smoking_history := smokingContribution input / totalContribution input;
       shap_gender := genderContribution input / totalContribution input |}.

(** ** generateFeatureContributions

    A feature is the [name] and the [key] of the source's table (its [value]
    and [unit] are read by nobody).  [shapValues[feature.key]] is a lookup by
    property name. *)

Record Feature : Type := {
  feature_name : string;
  feature_key : string
}.

Definition features : list Feature :=
  [ {| feature_name := "HbA1c Level"; feature_key := "hbA1c_level" |};
    {| feature_name := "Blood Glucose"; feature_key := "blood_glucose_level" |};
    {| feature_name := "BMI"; feature_key := "bmi" |};
    {| feature_name := "Age"; feature_key := "age" |};
    {| feature_name := "Hypertension"; feature_key := "hypertension" |};
    {| feature_name := "Heart Disease"; feature_key := "heart_disease" |};
    {| feature_name := "Smoking History"; feature_key := "smoking_history" |};
    {| feature_name := "Gender"; feature_key := "gender" |} ].

Definition shap_get (shapValues : ShapValues) (key : string) : option JS.number :=
  if String.eqb key "bmi" then Some (shap_bmi shapValues)
  else if String.eqb key "hbA1c_level" then Some (shap_hbA1c_level shapValues)
  else if String.eqb key "blood_glucose_level" then Some (shap_blood_glucose_level shapValues)
  else if String.eqb key "age" then Some (shap_age shapValues)
  else if String.eqb key "hypertension" then Some (shap_hypertension shapValues)
  else if String.eqb key "heart_disease" then Some (shap_heart_disease shapValues)
  else if String.eqb key "smoking_history" then Some (shap_smoking_history shapValues)
  else if String.eqb key "gender" then Some (shap_gender shapValues)
  else None.

Definition generateFeatureDescription (feature : Feature) (input : RiskPredictionInput)
  : string :=
  let key := feature_key feature in
  if String.eqb key "hbA1c_level" then
    if HbA1c_level input >= 6.5 then "Critical: HbA1c indicates diabetes"
    else if HbA1c_level input >= 5.7 then "Elevated: HbA1c in prediabetes range"
    else "Normal: HbA1c within healthy range"
  else if String.eqb key "blood_glucose_level" then
    if blood_glucose_level input >= 200 then "Critical: Blood glucose indicates diabetes"
    else if blood_glucose_level input >= 126 then "Elevated: Blood glucose in prediabetes range"
    else if blood_glucose_level input >= 100 then "Borderline: Blood glucose above normal"
    else "Normal: Blood glucose within healthy range"
  else if String.eqb key "bmi" then
    if bmi input >= 35 then "Critical: BMI indicates severe obesity"
    else if bmi input >= 30 then "High: BMI indicates obesity"
    else if bmi input >= 25 then "Moderate: BMI indicates overweight"
    else "Normal: BMI within healthy range"
  else if String.eqb key "age" then
    if age input >= 65 then "High: Advanced age increases diabetes risk"
    else if age input >= 45 then "Moderate: Age increases diabetes risk"
    else "Low: Age is not a significant risk factor"
  else if String.eqb key "hypertension" then
    if JS.truthy (hypertension input) then "High: Hypertension is a diabetes risk factor"
    else "Low: No hypertension"
  else if String.eqb key "heart_disease" then
    if JS.truthy (heart_disease input) then "High: Heart disease is a diabetes risk factor"
    else "Low: No heart disease"
  else if String.eqb key "smoking_history" then
    if String.eqb (smoking_history input) "current"
    then "High: Current smoking increases diabetes risk"
    else if String.eqb (smoking_history input) "former"
    then "Moderate: Former smoking may affect risk"
    else "Low: No smoking history"
  else if String.eqb key "gender" then
    if gender input === 1 then "Moderate: Male gender has slightly higher risk"
    else "Low: Female gender has lower risk"
  else "Feature contribution to risk assessment".

Definition isRiskFactor (feature : Feature) (input : RiskPredictionInput) : bool :=
  let key := feature_key feature in
  if String.eqb key "hbA1c_level" then HbA1c_level input >= 5.7
  else if String.eqb key "blood_glucose_level" then blood_glucose_level input >= 100
  else if String.eqb key "bmi" then bmi input >= 25
  else if String.eqb key "age" then age input >= 45
  else if String.eqb key "hypertension" then hypertension input === 1
  else if String.eqb key "heart_disease" then heart_disease input === 1
  else if String.eqb key "smoking_history" then
    String.eqb (smoking_history input) "current"
    || String.eqb (smoking_history input) "former"
  else if String.eqb key "gender" then gender input === 1
  else false.

Definition toContribution (shapValues : ShapValues) (input : RiskPredictionInput)
  (feature : Feature) : FeatureContribution :=
  {| name := feature_name feature;
     contribution := JS.or_zero (shap_get shapValues (feature_key feature));
     description := generateFeatureDescription feature input;
     risk_factor := isRiskFactor feature input |}.

Definition byContributionDesc (a b : FeatureContribution) : JS.number :=
  contribution b - contribution a.

Definition generateFeatureContributions (shapValues : ShapValues)
  (input : RiskPredictionInput) : list FeatureContribution :=
  JS.Array_sort byContributionDesc (map (toContribution shapValues input) features).

(** ** checkFlaggedConditions *)

Definition push (flags : list string) (flag : string) : list string := flags ++ [flag].

Definition checkFlaggedConditions (input : RiskPredictionInput) : list string :=
  let flags := [] in
  let flags :=
    if (blood_glucose_level input > 200) && (HbA1c_level input >= 6.5)
    then push flags "CRITICAL: Blood glucose > 200 mg/dL AND HbA1c ≥ 6.5% - Immediate medical attention required"
    else flags in
  let flags :=
    if (HbA1c_level input > 6.9) && (blood_glucose_level input >= 120)
    then push flags "HIGH RISK: HbA1c > 6.9% with Blood glucose ≥ 120 mg/dL"
    else flags in
  let flags :=
    if (blood_glucose_level input >= 200) && (HbA1c_level input >= 5.9)
    then push flags "HIGH RISK: Blood glucose ≥ 200 mg/dL with HbA1c ≥ 5.9%"
    else flags in
  let flags :=
    if HbA1c_level input >= 6.5
    then push flags "HIGH RISK: HbA1c ≥ 6.5% indicates diabetes"
    else flags in
  let flags :=
    if blood_glucose_level input > 200
    then push flags "HIGH RISK: Blood glucose > 200 mg/dL indicates diabetes"
    else flags in
  let flags :=
    if bmi input >= 35
    then push flags "HIGH RISK: Severe obesity (BMI ≥ 35)"
    else flags in
  let flags :=
    if (HbA1c_level input >= 5.7) && (blood_glucose_level input >= 126)
    then push flags "MODERATE RISK: Both HbA1c and blood glucose in prediabetes range"
    else flags in
  let flags :=
    if (age input >= 45) && (bmi input >= 30)
    then push flags "MODERATE RISK: Age ≥ 45 and obesity combination"
    else flags in
  flags.

(** ** generateRecommendations *)

Definition generateRecommendations (input : RiskPredictionInput) (riskLevel : RiskLevel)
  (flaggedConditions : list string) : string :=
  let recommendations := "" in
  let recommendations :=
    if existsb (fun flag => JS.includes flag "CRITICAL") flaggedConditions
    then recommendations ++ "URGENT: Immediate medical consultation required. "
    else recommendations in
  let recommendations :=
    match riskLevel with
    | Critical => recommendations ++ "Immediate medical intervention required. Consult healthcare provider within 24 hours. "
    | High => recommendations ++ "Schedule medical consultation within 1 week. "
    | Moderate => recommendations ++ "Schedule medical consultation within 2 weeks. "
    | Low => recommendations ++ "Continue regular health monitoring. "
    end in
  let recommendations :=
    if HbA1c_level input >= 6.5
    then recommendations ++ "Diabetes diagnosis likely - immediate lifestyle changes and medical management required. "
    else if HbA1c_level input >= 5.7
    then recommendations ++ "Prediabetes detected - focus on diet, exercise, and weight management. "
    else recommendations in
  let recommendations :=
    if blood_glucose_level input > 200
    then recommendations ++ "Elevated blood glucose requires immediate attention and monitoring. "
    else recommendations in
  let recommendations :=
    if bmi input >= 30
    then recommendations ++ "Weight management through diet and exercise is crucial. "
    else recommendations in
  let recommendations :=
    if JS.truthy (hypertension input)
    then recommendations ++ "Blood pressure management is essential for diabetes prevention. "
    else recommendations in
  let recommendations :=
    if String.eqb (smoking_history input) "current"
    then recommendations ++ "Smoking cessation is strongly recommended. "
    else recommendations in
  let recommendations :=
    recommendations ++ "Focus on balanced nutrition, regular physical activity, and stress management. " in
  JS.trim recommendations.

(** ** calculateConfidenceInterval *)

Definition calculateConfidenceInterval (score confidence : JS.number) : ConfidenceInterval :=
  let margin := (1 - confidence) * 0.5 in
  {| lower := JS.Math_max 0 (score - margin);
     upper := JS.Math_min 1 (score + margin) |}.

(** ** logPrediction

    The persistence collaborator is outside the engine; what matters to the
    engine is how its two calls end.  A call of [supabase.auth.getUser] throws,
    or resolves without a user or with one; the insert throws, or resolves with
    an error or without one.  The log record is built between the two, inside
    the same [try]. *)

Inductive GetUserOutcome : Type :=
| GetUserThrows (message : string)
| NoUser
| UserFound (id : string).

Inductive InsertOutcome : Type :=
| InsertThrows (message : string)
| InsertError (message : string)
| InsertDone.

Record Supabase : Type := {
  auth_getUser : GetUserOutcome;
  prediction_logs_insert : InsertOutcome
}.

Definition getUser (supabase : Supabase) : JS.completion (option string) :=
  match auth_getUser supabase with
  | GetUserThrows m => JS.Thrown m
  | NoUser => JS.Returned None
  | UserFound id => JS.Returned (Some id)
  end.

Definition insertLog (supabase : Supabase) : JS.completion (option string) :=
  match prediction_logs_insert supabase with
  | InsertThrows m => JS.Thrown m
  | InsertError m => JS.Returned (Some m)
  | InsertDone => JS.Returned None
  end.

Definition logPrediction (supabase : Supabase) (input : RiskPredictionInput)
  (result : RiskPredictionResult) : JS.completion unit :=
  JS.try_catch
    (user <- getUser supabase ;;
     match user with
     | None => JS.Returned tt                       (* console.warn; return *)
     | Some _ =>
         error <- insertLog supabase ;;
         JS.Returned tt                             (* console.error on an error *)
     end)
    (fun _ => JS.Returned tt).                      (* console.error *)

(** ** calculateRisk *)

Definition calculateRisk_result (input : RiskPredictionInput) : RiskPredictionResult :=
  let baseScore := calculateBaseRiskScore input in
  let modifiedScore := applyRiskModifiers baseScore input in
  let confidenceScore := calculateConfidenceScore input in
  let riskLevel := determineRiskLevel modifiedScore in
  let shapValues := calculateSHAPValues input in
  let featureContributions := generateFeatureContributions shapValues input in
  let flaggedConditions := checkFlaggedConditions input in
  let recommendations := generateRecommendations input riskLevel flaggedConditions in
  let confidenceInterval := calculateConfidenceInterval modifiedScore confidenceScore in
  let forcePositive := shouldForcePositive input in
  let predictionResult :=
    if forcePositive then Positive
    else if modifiedScore > 0.5 then Positive else Negative in
  {| prediction_result := predictionResult;
     confidence_score := confidenceScore;
     risk_level := riskLevel;
     probability := modifiedScore;
     recommendations := recommendations;
     shap_values := shapValues;
     feature_contributions := featureContributions;
     flagged_conditions := flaggedConditions;
     confidence_interval := confidenceInterval |}.

Definition calculateRisk (supabase : Supabase) (input : RiskPredictionInput)
  : JS.completion RiskPredictionResult :=
  JS.try_catch
    (let result := calculateRisk_result input in
     _ <- logPrediction supabase input result ;;
     JS.Returned result)
    (fun _ => JS.Thrown "Failed to calculate risk assessment").

(** ** What the specification measures the engine against *)

(** The sum of the shares of an attribution list, added up from the left. *)
Definition sumShares (l : list FeatureContribution) : JS.number :=
  fold_left (fun acc c => acc + contribution c) l 0.

(** The input the specification calls invalid: no patient reference, or a
    numeric field that is NaN or infinite. *)
Definition invalidInput (input : RiskPredictionInput) : bool :=
  String.eqb (patient_id input) ""
  || negb (is_finite (age input) && is_finite (gender input) && is_finite (bmi input)
           && is_finite (hypertension input) && is_finite (heart_disease input)
           && is_finite (HbA1c_level input) && is_finite (blood_glucose_level input)).

(** The eight flag rules of the specification, in its evaluation order. *)
Definition flagRules : list ((RiskPredictionInput -> bool) * string) :=
  [ (fun i => (blood_glucose_level i > 200) && (HbA1c_level i >= 6.5),
     "CRITICAL: Blood glucose > 200 mg/dL AND HbA1c ≥ 6.5% - Immediate medical attention required");
    (fun i => (HbA1c_level i > 6.9) && (blood_glucose_level i >= 120),
     "HIGH RISK: HbA1c > 6.9% with Blood glucose ≥ 120 mg/dL");
    (fun i => (blood_glucose_level i >= 200) && (HbA1c_level i >= 5.9),
     "HIGH RISK: Blood glucose ≥ 200 mg/dL with HbA1c ≥ 5.9%");
    (fun i => HbA1c_level i >= 6.5,
     "HIGH RISK: HbA1c ≥ 6.5% indicates diabetes");
    (fun i => blood_glucose_level i > 200,
     "HIGH RISK: Blood glucose > 200 mg/dL indicates diabetes");
    (fun i => bmi i >= 35,
     "HIGH RISK: Severe obesity (BMI ≥ 35)");
    (fun i => (HbA1c_level i >= 5.7) && (blood_glucose_level i >= 126),
     "MODERATE RISK: Both HbA1c and blood glucose in prediabetes range");
    (fun i => (age i >= 45) && (bmi i >= 30),
     "MODERATE RISK: Age ≥ 45 and obesity combination") ].

(** The position of an attribution in a list of feature names (the length of
    the list for a name that is not in it). *)
Fixpoint rankIn (order : list string) (featureName : string) : nat :=
  match order with
  | [] => 0
  | n :: rest => if String.eqb n featureName then 0 else S (rankIn rest featureName)
  end.

(** The order of the engine's own feature table. *)
Definition engineOrder : list string := map feature_name features.

(** The field order of section 3 of the specification (age, sex, bmi,
    hypertension, heartDisease, smokingStatus, hba1cPercent,
    bloodGlucoseMgDl), under the names the engine gives the features. *)
Definition specFieldOrder : list string :=
  [ "Age"; "Gender"; "BMI"; "Hypertension"; "Heart Disease"; "Smoking History";
    "HbA1c Level"; "Blood Glucose" ].

(** Every entry of the list is related to every later one. *)
Fixpoint pairwise {A : Type} (R : A -> A -> bool) (l : list A) : bool :=
  match l with
  | [] => true
  | x :: rest => forallb (R x) rest && pairwise R rest
  end.

(** [a] stands rightly before [b] in a list ranked by descending share, ties
    in the given order of feature names. *)
Definition inRank (order : list string) (a b : FeatureContribution) : bool :=
  if contribution b <=? contribution a then
    if contribution a =? contribution b
    then Nat.ltb (rankIn order (name a)) (rankIn order (name b))
    else true
  else false.

(** A sum of shares that is 1 up to rounding: within 1e-15 of it. *)
Definition nearOne (x : JS.number) : bool := abs (x - 1) <=? 1e-15.

(** The shares of an attribution list with the given total: they sum to 1
    when the total is positive, they all vanish when it is 0, and the total
    is one or the other. *)
Definition sharesNormalised (total : JS.number) (l : list FeatureContribution) : bool :=
  implb (0 <? total) (nearOne (sumShares l))
  && implb (total =? 0) (forallb (fun c => contribution c =? 0) l)
  && ((0 <? total) || (total =? 0)).

(** The interval holds the score. *)
Definition brackets (interval : ConfidenceInterval) (score : JS.number) : bool :=
  (lower interval <=? score) && (score <=? upper interval).

(** The confidence interval computed from a score and a confidence holds the
    score. *)
Definition intervalBrackets (score confidence : JS.number) : bool :=
  brackets (calculateConfidenceInterval score confidence) score.

(** A sample patient: the one of the repository's consistency test. *)
Definition patient (hba1c glucose : JS.number) : RiskPredictionInput :=
  {| patient_id := "consistency001"; age := 50; gender := 0; bmi := 30;
     hypertension := 1; heart_disease := 0; smoking_history := "former";
     HbA1c_level := hba1c; blood_glucose_level := glucose |}.

(** A healthy patient with one reading raised. *)
Definition healthy (hba1c glucose hypertensive : JS.number) : RiskPredictionInput :=
  {| patient_id := "min001"; age := 18; gender := 0; bmi := 18.5;
     hypertension := hypertensive; heart_disease := 0; smoking_history := "never";
     HbA1c_level := hba1c; blood_glucose_level := glucose |}.

(** An input with no identity and no finite number. *)
Definition unidentified : RiskPredictionInput :=
  {| patient_id := ""; age := nan; gender := nan; bmi := infinity;
     hypertension := nan; heart_disease := nan; smoking_history := "";
     HbA1c_level := nan; blood_glucose_level := neg_infinity |}.

(** A persistence collaborator that logs, and one whose calls throw. *)
Definition loggingStore : Supabase :=
  {| auth_getUser := UserFound "clinician"; prediction_logs_insert := InsertDone |}.

Definition failingStore : Supabase :=
  {| auth_getUser := GetUserThrows "network"; prediction_logs_insert := InsertThrows "network" |}.

(** A share that is a fraction of the whole. *)
Definition isFraction (c : FeatureContribution) : bool :=
  (0 <=? contribution c) && (contribution c <=? 1).

(** A patient as the tests of the repository write one. *)
Definition testPatient (years sex bodyMass hypertensive cardiac : JS.number)
  (smoking : string) (hba1c glucose : JS.number) : RiskPredictionInput :=
  {| patient_id := "test"; age := years; gender := sex; bmi := bodyMass;
     hypertension := hypertensive; heart_disease := cardiac;
     smoking_history := smoking; HbA1c_level := hba1c; blood_glucose_level := glucose |}.

(** ** The entries of the attribution list, feature by feature *)

(** The Stage D contribution that [calculateSHAPValues] divides by the total
    to fill the property [key] of its result. *)
Definition rawContribution (input : RiskPredictionInput) (key : string) : JS.number :=
  if String.eqb key "bmi" then bmiContribution input
  else if String.eqb key "hbA1c_level" then hba1cContribution input
  else if String.eqb key "blood_glucose_level" then glucoseContribution input
  else if String.eqb key "age" then ageContribution input
  else if String.eqb key "hypertension" then hypertensionContribution input
  else if String.eqb key "heart_disease" then heartDiseaseContribution input
  else if String.eqb key "smoking_history" then smokingContribution input
  else if String.eqb key "gender" then genderContribution input
  else 0.

(** The share listed for a feature is the property of the record; it is
    positive when the feature contributes and +0 when it does not. *)
Definition shareReflects (shapValues : ShapValues) (input : RiskPredictionInput)
  (feature : Feature) : bool :=
  let raw := rawContribution input (feature_key feature) in
  let share := JS.or_zero (shap_get shapValues (feature_key feature)) in
  match shap_get shapValues (feature_key feature) with
  | Some v => PrimFloat.Leibniz.eqb share v
  | None => false
  end
  && (if 0 <? raw then (0 <? share) && negb (share =? 0)
      else (raw =? 0) && PrimFloat.Leibniz.eqb share 0).

(** A description that reports nothing of concern: the "Normal: ..." and
    "Low: ..." texts of [generateFeatureDescription]. *)
Definition benign (text : string) : bool :=
  String.prefix "Normal: " text || String.prefix "Low: " text.

(** The comorbidity fields hold 0 or 1, as the interface asks. *)
Definition codedAsFlags (input : RiskPredictionInput) : bool :=
  ((hypertension input === 0) || (hypertension input === 1))
  && ((heart_disease input === 0) || (heart_disease input === 1)).

(** A feature is flagged as a risk factor only when it contributes, it is
    flagged when it contributes and the comorbidity fields are coded 0 or 1,
    and its description is benign exactly when it does not contribute. *)
Definition featureConsistent (input : RiskPredictionInput) (feature : Feature) : bool :=
  let contributes := 0 <? rawContribution input (feature_key feature) in
  implb (isRiskFactor feature input) contributes
  && implb (codedAsFlags input && contributes) (isRiskFactor feature input)
  && Bool.eqb (benign (generateFeatureDescription feature input)) (negb contributes).

(** ** Flags, label and level together *)

Definition criticalFlag : string :=
  "CRITICAL: Blood glucose > 200 mg/dL AND HbA1c ≥ 6.5% - Immediate medical attention required".

(** The two flags that no HbA1c or glucose reading raises. *)
Definition bodyMassFlags : list string :=
  [ "HIGH RISK: Severe obesity (BMI ≥ 35)";
    "MODERATE RISK: Age ≥ 45 and obesity combination" ].

Definition isCritical (level : RiskLevel) : bool :=
  match level with Critical => true | _ => false end.

(** ** One reading changed *)

(** The input with another HbA1c level, blood glucose level, BMI or age. *)
Definition withHbA1c (input : RiskPredictionInput) (value : JS.number) : RiskPredictionInput :=
  {| patient_id := patient_id input; age := age input; gender := gender input;
     bmi := bmi input; hypertension := hypertension input;
     heart_disease := heart_disease input; smoking_history := smoking_history input;
     HbA1c_level := value; blood_glucose_level := blood_glucose_level input |}.

Definition withBloodGlucose (input : RiskPredictionInput) (value : JS.number)
  : RiskPredictionInput :=
  {| patient_id := patient_id input; age := age input; gender := gender input;
     bmi := bmi input; hypertension := hypertension input;
     heart_disease := heart_disease input; smoking_history := smoking_history input;
     HbA1c_level := HbA1c_level input; blood_glucose_level := value |}.

Definition withBmi (input : RiskPredictionInput) (value : JS.number) : RiskPredictionInput :=
  {| patient_id := patient_id input; age := age input; gender := gender input;
     bmi := value; hypertension := hypertension input;
     heart_disease := heart_disease input; smoking_history := smoking_history input;
     HbA1c_level := HbA1c_level input; blood_glucose_level := blood_glucose_level input |}.

Definition withAge (input : RiskPredictionInput) (value : JS.number) : RiskPredictionInput :=
  {| patient_id := patient_id input; age := value; gender := gender input;
     bmi := bmi input; hypertension := hypertension input;
     heart_disease := heart_disease input; smoking_history := smoking_history input;
     HbA1c_level := HbA1c_level input; blood_glucose_level := blood_glucose_level input |}.

(** The final probability of an input. *)
Definition riskScore (input : RiskPredictionInput) : JS.number :=
  applyRiskModifiers (calculateBaseRiskScore input) input.

Definition withHypertension (input : RiskPredictionInput) (value : JS.number)
  : RiskPredictionInput :=
  {| patient_id := patient_id input; age := age input; gender := gender input;
     bmi := bmi input; hypertension := value;
     heart_disease := heart_disease input; smoking_history := smoking_history input;
     HbA1c_level := HbA1c_level input; blood_glucose_level := blood_glucose_level input |}.

Definition withHeartDisease (input : RiskPredictionInput) (value : JS.number)
  : RiskPredictionInput :=
  {| patient_id := patient_id input; age := age input; gender := gender input;
     bmi := bmi input; hypertension := hypertension input;
     heart_disease := value; smoking_history := smoking_history input;
     HbA1c_level := HbA1c_level input; blood_glucose_level := blood_glucose_level input |}.

(** The second patient is at least as severe as the first: same sex and
    smoking history, every comorbidity of the first, and an age, a BMI, an
    HbA1c level and a glucose level that are no lower. *)
Definition atLeastAsSevere (a b : RiskPredictionInput) : Prop :=
  gender a = gender b
  /\ smoking_history a = smoking_history b
  /\ (JS.truthy (hypertension a) = true -> JS.truthy (hypertension b) = true)
  /\ (JS.truthy (heart_disease a) = true -> JS.truthy (heart_disease b) = true)
  /\ (age a <=? age b) = true
  /\ (bmi a <=? bmi b) = true
  /\ (HbA1c_level a <=? HbA1c_level b) = true
  /\ (blood_glucose_level a <=? blood_glucose_level b) = true.

(** ** The confidence score and its display *)

(** The four plausibility tests of [calculateConfidenceScore]. *)
Definition implausibleHbA1c (input : RiskPredictionInput) : bool :=
  (HbA1c_level input > 15) || (HbA1c_level input < 3).

Definition implausibleGlucose (input : RiskPredictionInput) : bool :=
  (blood_glucose_level input > 600) || (blood_glucose_level input < 50).

Definition implausibleBmi (input : RiskPredictionInput) : bool :=
  (bmi input > 60) || (bmi input < 15).

Definition implausibleAge (input : RiskPredictionInput) : bool :=
  (age input > 100) || (age input < 10).

(** [getConfidenceColor] of the results component
    (components/assessment/RiskAssessmentResults). *)
Definition getConfidenceColor (score : JS.number) : string :=
  if score >= 0.8 then "text-green-400"
  else if score >= 0.6 then "text-yellow-400"
  else "text-red-400".

(** How the confidence of an input is displayed, given which of its values
    are implausible. *)
Definition confidenceDisplay (input : RiskPredictionInput) : bool :=
  let colour := getConfidenceColor (calculateConfidenceScore input) in
  let lab := implausibleHbA1c input || implausibleGlucose input in
  let body := implausibleBmi input || implausibleAge input in
  (if lab then negb (String.eqb colour "text-green-400") else true)
  && (if implausibleHbA1c input && implausibleGlucose input
      then String.eqb colour "text-red-400" else true)
  && (if negb lab then negb (String.eqb colour "text-red-400")
      else true)
  && (if negb lab && negb body then String.eqb colour "text-green-400" else true).

(** ** The assessment form (handleSubmit of the assessment page)

    The part of [handleSubmit] that decides whether the engine is called and
    with which input: the check of the required fields, the two range checks
    and the construction of the [RiskPredictionInput].  [parseFloat] and
    [parseInt] are the built-ins of the language and [bmi] is the state set
    from height and weight ([null] until both are positive). *)

Record AssessmentForm : Type := {
  form_patient_id : string;
  form_age : string;
  form_gender : string;
  form_height : string;
  form_weight : string;
  form_hypertension : bool;
  form_heart_disease : bool;
  form_smoking_history : string;
  form_HbA1c_level : string;
  form_blood_glucose_level : string
}.

(** What [handleSubmit] does before the engine runs: a toast that rejects the
    form, or the call of [calculateRisk] with an input. *)
Inductive Submission : Type :=
| Toast (title : string)
| Assess (input : RiskPredictionInput).

Definition requiredFields : list string :=
  [ "patient_id"; "age"; "gender"; "height"; "weight"; "HbA1c_level";
    "blood_glucose_level" ].

(** [form[field]] for the required fields, which are all strings. *)
Definition formField (form : AssessmentForm) (field : string) : string :=
  if String.eqb field "patient_id" then form_patient_id form
  else if String.eqb field "age" then form_age form
  else if String.eqb field "gender" then form_gender form
  else if String.eqb field "height" then form_height form
  else if String.eqb field "weight" then form_weight form
  else if String.eqb field "HbA1c_level" then form_HbA1c_level form
  else if String.eqb field "blood_glucose_level" then form_blood_glucose_level form
  else "".

Section HandleSubmit.

Variables parseFloat parseInt : string -> JS.number.

Definition handleSubmit (bmiState : option JS.number) (form : AssessmentForm) : Submission :=
  let missingFields :=
    filter (fun field => String.eqb (formField form field) "") requiredFields in
  if Nat.ltb 0 (List.length missingFields) then Toast "Missing information"
  else
    let hba1c := parseFloat (form_HbA1c_level form) in
    let glucose := parseInt (form_blood_glucose_level form) in
    if (hba1c > 15) || (hba1c < 3) then Toast "Invalid HbA1c Level"
    else if (glucose > 600) || (glucose < 50) then Toast "Invalid Blood Glucose Level"
    else
      Assess
        {| patient_id := form_patient_id form;
           age := parseInt (form_age form);
           gender := if String.eqb (form_gender form) "male" then 1 else 0;
           bmi := JS.or_zero bmiState;
           hypertension := if form_hypertension form then 1 else 0;
           heart_disease := if form_heart_disease form then 1 else 0;
           smoking_history := form_smoking_history form;
           HbA1c_level := hba1c;
           blood_glucose_level := glucose |}.

End HandleSubmit.

(** A form filled in, but for the two laboratory values. *)
Definition filledForm (hba1c glucose : string) : AssessmentForm :=
  {| form_patient_id := "P-17"; form_age := "52"; form_gender := "female";
     form_height := "170"; form_weight := "70"; form_hypertension := true;
     form_heart_disease := false; form_smoking_history := "never";
     form_HbA1c_level := hba1c; form_blood_glucose_level := glucose |}.

(** A stand-in for the parsers on the sample form: "abc" is no number. *)
Definition sampleParse (text : string) : JS.number :=
  if String.eqb text "abc" then nan
  else if String.eqb text "52" then 52
  else if String.eqb text "110" then 110
  else if String.eqb text "5.4" then 5.4
  else nan.

(** The HbA1c row of the feature table. *)
Definition hba1cFeature : Feature :=
  {| feature_name := "HbA1c Level"; feature_key := "hbA1c_level" |}.

(** ** checkDatabaseTables

    A query of the database throws, resolves with an error or resolves with
    data.  What is thrown is an [Error] with a message or something else. *)

Inductive ThrownValue : Type :=
| ErrorObject (message : string)
| OtherValue.

Inductive QueryOutcome (A : Type) : Type :=
| QueryThrows (thrown : ThrownValue)
| QueryError (message : string)
| QueryData (data : A).
Arguments QueryThrows {A} thrown.
Arguments QueryError {A} message.
Arguments QueryData {A} data.





(** ** The prediction log and the patient history *)

(** The row that [logPrediction] inserts into [prediction_logs]. *)
Record PredictionLog : Type := {
  prediction_id : string;
  prediction_time : string;
  prediction : JS.number;
  log_probability : JS.number;
  feature_input : RiskPredictionInput;
  log_recommendations : string;
  log_shap_values : ShapValues;
  log_confidence_interval : ConfidenceInterval;
  user_id : string;
  log_patient_id : string
}.

Definition predictionLog (uuid now userId : string) (input : RiskPredictionInput)
  (result : RiskPredictionResult) : PredictionLog :=
  {| prediction_id := uuid;
     prediction_time := now;
     prediction := probability result;
     log_probability := confidence_score result;
     feature_input := input;
     log_recommendations := recommendations result;
     log_shap_values := shap_values result;
     log_confidence_interval := confidence_interval result;
     user_id := userId;
     log_patient_id := patient_id input |}.

(** [getPatientPredictionHistory] of the service, on the outcome of its
    query ([data] may be [null]). *)
Definition getPatientPredictionHistory (query : QueryOutcome (option (list PredictionLog)))
  : list PredictionLog :=
  match query with
  | QueryThrows _ => []
  | QueryError _ => []
  | QueryData (Some rows) => rows
  | QueryData None => []
  end.

(** [patientHistoryAPI.getPatientHistory], on the outcome of the same query. *)
Record PatientHistoryResponse : Type := {
  success : bool;
  response_data : option (list PredictionLog);
  response_error : option string
}.

Definition getPatientHistory (query : QueryOutcome (option (list PredictionLog)))
  : PatientHistoryResponse :=
  match query with
  | QueryThrows _ =>
      {| success := false; response_data := None;
         response_error := Some "Failed to fetch patient history" |}
  | QueryError message =>
      {| success := false; response_data := None; response_error := Some message |}
  | QueryData (Some rows) =>
      {| success := true; response_data := Some rows; response_error := None |}
  | QueryData None =>
      {| success := true; response_data := Some []; response_error := None |}
  end.

(** [getRiskLevel] of the patient history page. *)
Record RiskBadge : Type := {
  level : string;
  color : string
}.

Definition getRiskLevel (score : JS.number) : RiskBadge :=
  if score < 0.3 then {| level := "Low"; color := "bg-green-500" |}
  else if score < 0.6 then {| level := "Moderate"; color := "bg-yellow-500" |}
  else {| level := "High"; color := "bg-red-500" |}.

(** The level the history page shows for a score against the level the
    engine gives it. *)
Definition levelsAgree (score : JS.number) : bool :=
  let shown := level (getRiskLevel score) in
  match determineRiskLevel score with
  | Critical | High => String.eqb shown "High"
  | Moderate => String.eqb shown "Moderate"
  | Low => String.eqb shown (if score >= 0.3 then "Moderate" else "Low")
  end.

(** ** The recommendation text *)

(** [text.endsWith(suffix)] *)
Definition endsWith (text suffix : string) : bool :=
  let n := String.length text in
  let m := String.length suffix in
  if Nat.ltb n m then false
  else String.eqb (String.substring (n - m) m text) suffix.

Definition closingAdvice : string :=
  "Focus on balanced nutrition, regular physical activity, and stress management.".

Definition urgentAdvice : string :=
  "URGENT: Immediate medical consultation required. ".

(** The consultation clause of a risk level. *)
Definition consultation (level : RiskLevel) : string :=
  match level with
  | Critical => "Consult healthcare provider within 24 hours."
  | High => "Schedule medical consultation within 1 week."
  | Moderate => "Schedule medical consultation within 2 weeks."
  | Low => "Continue regular health monitoring."
  end.

Definition sameLevel (a b : RiskLevel) : bool :=
  match a, b with
  | Low, Low | Moderate, Moderate | High, High | Critical, Critical => true
  | _, _ => false
  end.

(** A recommendation text is trimmed, closes with the general advice, opens
    with the urgent advice exactly when [urgent], holds the consultation
    clause of [level] and of no other level, and holds each condition clause
    exactly when its condition is given. *)
Definition wellFormedAdvice (level : RiskLevel)
  (urgent diabetes prediabetes glucose weight pressure smoking : bool)
  (text : string) : bool :=
  String.eqb (JS.trim text) text
  && endsWith text closingAdvice
  && Bool.eqb (String.prefix urgentAdvice text) urgent
  && forallb (fun other => Bool.eqb (JS.includes text (consultation other))
                             (sameLevel other level))
       [Low; Moderate; High; Critical]
  && Bool.eqb (JS.includes text "Diabetes diagnosis likely") diabetes
  && Bool.eqb (JS.includes text "Prediabetes detected") prediabetes
  && Bool.eqb (JS.includes text "Elevated blood glucose requires immediate attention") glucose
  && Bool.eqb (JS.includes text "Weight management through diet and exercise") weight
  && Bool.eqb (JS.includes text "Blood pressure management is essential") pressure
  && Bool.eqb (JS.includes text "Smoking cessation is strongly recommended") smoking.

(** ** Score and modifiers *)

(** One of the four conditions of [applyRiskModifiers] holds. *)
Definition modified (input : RiskPredictionInput) : bool :=
  ((blood_glucose_level input > 200) && (HbA1c_level input >= 6.5))
  || ((HbA1c_level input >= 6.0) && (bmi input >= 30))
  || ((age input >= 45) && (HbA1c_level input >= 5.7))
  || (JS.truthy (hypertension input) && JS.truthy (heart_disease input)).

(** One of the tests of Stage A holds. *)
Definition anyRisk (input : RiskPredictionInput) : bool :=
  (HbA1c_level input >= 6.5) || (HbA1c_level input > 6.9) || (HbA1c_level input >= 5.7)
  || (blood_glucose_level input >= 200) || (blood_glucose_level input >= 126)
  || (blood_glucose_level input >= 120) || (blood_glucose_level input >= 100)
  || (bmi input >= 35) || (bmi input >= 30) || (bmi input >= 25)
  || (age input >= 45)
  || JS.truthy (hypertension input) || JS.truthy (heart_disease input)
  || String.eqb (smoking_history input) "current"
  || String.eqb (smoking_history input) "former"
  || (gender input === 1).

(** The modifiers only raise the base score, they leave it as it is when
    none applies, and the score is 0 exactly when no test of Stage A holds. *)
Definition scoreBuildsUp (input : RiskPredictionInput) : bool :=
  let base := calculateBaseRiskScore input in
  let score := applyRiskModifiers base input in
  (base <=? score)
  && (if modified input then true else PrimFloat.Leibniz.eqb score base)
  && Bool.eqb (score =? 0) (negb (anyRisk input))
  && Bool.eqb (base =? 0) (negb (anyRisk input)).

Definition routineAdvice : string :=
  "Continue regular health monitoring. Focus on balanced nutrition, regular physical activity, and stress management.".

(** The confidence interval computed from a score and a confidence lies in
    [0,1], is not empty and is at most 0.5 wide. *)
Definition intervalInUnit (score confidence : JS.number) : bool :=
  let interval := calculateConfidenceInterval score confidence in
  (0 <=? lower interval) && (lower interval <=? upper interval)
  && (upper interval <=? 1) && (upper interval - lower interval <=? 0.5).

(** Quantification over a boolean, for properties decided by evaluation. *)
Definition all_bool (f : bool -> bool) : bool := f true && f false.

(** * Properties *)

(** ** The order of binary64 values

    The comparisons of [float] are specified on [spec_float]
    ([leb_spec], [ltb_spec]); there they are a lexicographic comparison of
    sign, exponent and mantissa, which is transitive whatever the operands. *)

Section FloatOrder.

Ltac sf_order :=
  unfold SFleb, SFltb, SFcompare;
  repeat match goal with
  | x : spec_float |- _ => destruct x
  | s : bool |- _ => destruct s
  end;
  try (intros; (reflexivity || discriminate));
  change (Pos.compare_cont Eq) with Pos.compare;
  repeat match goal with
  | |- context [Z.compare ?a ?b] => destruct (Z.compare_spec a b)
  | |- context [Pos.compare ?a ?b] => destruct (Pos.compare_spec a b)
  end;
  cbn; intros; try (reflexivity || discriminate || lia).

Lemma SFleb_trans (x y z : spec_float) :
  SFleb x y = true -> SFleb y z = true -> SFleb x z = true.
Proof. sf_order. Qed.

Lemma SFltb_leb_trans (x y z : spec_float) :
  SFltb x y = true -> SFleb y z = true -> SFltb x z = true.
Proof. sf_order. Qed.

Lemma SFleb_ltb_trans (x y z : spec_float) :
  SFleb x y = true -> SFltb y z = true -> SFleb x z = true.
Proof. sf_order. Qed.

Lemma leb_trans (x y z : float) :
  (x <=? y) = true -> (y <=? z) = true -> (x <=? z) = true.
Proof. rewrite !leb_spec. apply SFleb_trans. Qed.

Lemma ltb_leb_trans (x y z : float) :
  (x <? y) = true -> (y <=? z) = true -> (x <? z) = true.
Proof. rewrite !ltb_spec, !leb_spec. apply SFltb_leb_trans. Qed.

Lemma leb_ltb_trans (x y z : float) :
  (x <=? y) = true -> (y <? z) = true -> (x <=? z) = true.
Proof. rewrite !ltb_spec, !leb_spec. apply SFleb_ltb_trans. Qed.

(** The same on the tests as the source writes them, [x >= c] and [x > c]:
    a test against a threshold implies the test against a lower one. *)
Lemma ge_weaken (x hi lo : JS.number) :
  (lo <=? hi) = true -> (x >= hi) = true -> (x >= lo) = true.
Proof. unfold JS.ge. intros Hc Hx. exact (leb_trans _ _ _ Hc Hx). Qed.

Lemma gt_ge_weaken (x hi lo : JS.number) :
  (lo <=? hi) = true -> (x > hi) = true -> (x >= lo) = true.
Proof. unfold JS.gt, JS.ge. intros Hc Hx. exact (leb_ltb_trans _ _ _ Hc Hx). Qed.

Lemma ge_gt_weaken (x hi lo : JS.number) :
  (lo <? hi) = true -> (x >= hi) = true -> (x > lo) = true.
Proof. unfold JS.gt, JS.ge. intros Hc Hx. exact (ltb_leb_trans _ _ _ Hc Hx). Qed.

End FloatOrder.

(** ** Deciding a property of the engine by evaluation

    The engine reads its numeric inputs only through comparisons against
    literals, so a property of its output is a property of the outcomes of
    those comparisons: each outcome is replaced by a boolean, and the
    property is evaluated for both of its values. *)

Lemma all_bool_elim (f : bool -> bool) (b : bool) : all_bool f = true -> f b = true.
Proof.
  unfold all_bool. intros H. apply andb_prop in H. destruct H, b; assumption.
Qed.

Ltac abstract_bool a :=
  lazymatch goal with
  | |- ?G = true =>
      lazymatch (eval pattern a in G) with
      | ?F _ => refine (all_bool_elim F a _)
      end
  end.

Ltac abstract_tests i :=
  repeat match goal with
  | |- context [JS.ge (?f i) ?c] => abstract_bool (JS.ge (f i) c)
  | |- context [JS.gt (?f i) ?c] => abstract_bool (JS.gt (f i) c)
  | |- context [JS.lt (?f i) ?c] => abstract_bool (JS.lt (f i) c)
  | |- context [JS.strict_eq (?f i) ?c] => abstract_bool (JS.strict_eq (f i) c)
  | |- context [JS.truthy (?f i)] => abstract_bool (JS.truthy (f i))
  | |- context [String.eqb (?f i) ?c] => abstract_bool (String.eqb (f i) c)
  end.

Ltac expose_thresholds :=
  cbv beta delta [RISK_THRESHOLDS.HbA1c.normal RISK_THRESHOLDS.HbA1c.prediabetes
    RISK_THRESHOLDS.HbA1c.diabetes RISK_THRESHOLDS.HbA1c.highRisk
    RISK_THRESHOLDS.bloodGlucose.normal RISK_THRESHOLDS.bloodGlucose.prediabetes
    RISK_THRESHOLDS.bloodGlucose.diabetes RISK_THRESHOLDS.bloodGlucose.moderateRisk
    RISK_THRESHOLDS.bmi.normal RISK_THRESHOLDS.bmi.overweight RISK_THRESHOLDS.bmi.obese
    RISK_THRESHOLDS.age.increased_risk].

Ltac expose_score :=
  cbv beta delta [applyRiskModifiers calculateBaseRiskScore addHbA1c addBloodGlucose
    addBmi addAge addHypertension addHeartDisease addSmoking addGender
    calculateConfidenceScore];
  expose_thresholds.

(** ** The engine always returns *)

Lemma logPrediction_returns (supabase : Supabase) (input : RiskPredictionInput)
  (result : RiskPredictionResult) :
  logPrediction supabase input result = JS.Returned tt.
Proof.
  unfold logPrediction, getUser, insertLog.
  destruct (auth_getUser supabase); cbn; try reflexivity.
  destruct (prediction_logs_insert supabase); reflexivity.
Qed.

Lemma calculateRisk_returns (supabase : Supabase) (input : RiskPredictionInput) :
  calculateRisk supabase input = JS.Returned (calculateRisk_result input).
Proof.
  unfold calculateRisk. cbv zeta. rewrite logPrediction_returns. reflexivity.
Qed.

Lemma calculateRisk_inv (supabase : Supabase) (input : RiskPredictionInput)
  (result : RiskPredictionResult) :
  calculateRisk supabase input = JS.Returned result -> result = calculateRisk_result input.
Proof. rewrite calculateRisk_returns. intros H. injection H as <-. reflexivity. Qed.

(** ** Stage E: the prediction label *)

Lemma shouldForcePositive_spec (i : RiskPredictionInput) :
  shouldForcePositive i = true <->
  ((HbA1c_level i > 6.9) = true /\ (blood_glucose_level i >= 120) = true)
  \/ ((blood_glucose_level i >= 200) = true /\ (HbA1c_level i >= 5.9) = true)
  \/ (HbA1c_level i >= 6.5) = true
  \/ (blood_glucose_level i >= 126) = true.
Proof.
  unfold shouldForcePositive. expose_thresholds.
  destruct (HbA1c_level i > 6.9), (blood_glucose_level i >= 120),
    (blood_glucose_level i >= 200), (HbA1c_level i >= 5.9),
    (HbA1c_level i >= 6.5), (blood_glucose_level i >= 126); cbn; intuition congruence.
Qed.

Lemma label_positive_iff (i : RiskPredictionInput) :
  prediction_result (calculateRisk_result i) = Positive <->
  shouldForcePositive i = true \/ (probability (calculateRisk_result i) > 0.5) = true.
Proof.
  change (probability (calculateRisk_result i))
    with (applyRiskModifiers (calculateBaseRiskScore i) i).
  change (prediction_result (calculateRisk_result i))
    with (if shouldForcePositive i then Positive
          else if applyRiskModifiers (calculateBaseRiskScore i) i > 0.5
               then Positive else Negative).
  destruct (shouldForcePositive i);
    destruct (applyRiskModifiers (calculateBaseRiskScore i) i > 0.5);
    intuition congruence.
Qed.

Lemma label_negative_iff (r : RiskPredictionResult) :
  prediction_result r = Negative <-> prediction_result r <> Positive.
Proof. destruct (prediction_result r); intuition congruence. Qed.

(** C1. The label of the result is Positive exactly when one of the four
    forcing conditions holds or the final probability exceeds 0.5, and it is
    Negative otherwise; the forcing conditions make a result Positive whose
    probability is at most 0.5. *)
Theorem C1_prediction_label :
  (forall (supabase : Supabase) (i : RiskPredictionInput),
     exists r, calculateRisk supabase i = JS.Returned r /\
       let forced_or_likely :=
         ((HbA1c_level i > 6.9) = true /\ (blood_glucose_level i >= 120) = true)
         \/ ((blood_glucose_level i >= 200) = true /\ (HbA1c_level i >= 5.9) = true)
         \/ (HbA1c_level i >= 6.5) = true
         \/ (blood_glucose_level i >= 126) = true
         \/ (probability r > 0.5) = true in
       (prediction_result r = Positive <-> forced_or_likely)
       /\ (prediction_result r = Negative <-> ~ forced_or_likely))
  /\ (exists (supabase : Supabase) (i : RiskPredictionInput) (r : RiskPredictionResult),
        calculateRisk supabase i = JS.Returned r
        /\ (probability r <=? 0.5) = true
        /\ prediction_result r = Positive).
Proof.
  split.
  - intros supabase i. exists (calculateRisk_result i).
    split; [apply calculateRisk_returns|]. cbv zeta.
    rewrite label_negative_iff, label_positive_iff, shouldForcePositive_spec. tauto.
  - exists loggingStore, (healthy 5 126 0), (calculateRisk_result (healthy 5 126 0)).
    split; [apply calculateRisk_returns|]. split; vm_compute; reflexivity.
Qed.

(** ** Stages B and C: the ranges of probability and confidence *)

Lemma probability_in_range (i : RiskPredictionInput) :
  (0 <=? applyRiskModifiers (calculateBaseRiskScore i) i)
  && (applyRiskModifiers (calculateBaseRiskScore i) i <=? 1) = true.
Proof. expose_score. abstract_tests i. vm_compute. reflexivity. Qed.

Lemma confidence_in_range (i : RiskPredictionInput) :
  (0.5 <=? calculateConfidenceScore i) && (calculateConfidenceScore i <=? 1.0) = true.
Proof. expose_score. abstract_tests i. vm_compute. reflexivity. Qed.

(** C2. Whenever the engine returns a result, its probability is in [0,1]
    and its confidence score in [0.5,1.0]. *)
Theorem C2_probability_and_confidence_ranges
  (supabase : Supabase) (i : RiskPredictionInput) (r : RiskPredictionResult) :
  calculateRisk supabase i = JS.Returned r ->
  ((0 <=? probability r) = true /\ (probability r <=? 1) = true)
  /\ ((0.5 <=? confidence_score r) = true /\ (confidence_score r <=? 1.0) = true).
Proof.
  intros H. apply calculateRisk_inv in H. subst r.
  split; apply andb_prop.
  - exact (probability_in_range i).
  - exact (confidence_in_range i).
Qed.

Lemma C2_ranges_witness :
  ((0 <=? probability (calculateRisk_result (patient 7.2 250))) = true
   /\ (probability (calculateRisk_result (patient 7.2 250)) <=? 1) = true)
  /\ ((0.5 <=? confidence_score (calculateRisk_result (patient 7.2 250))) = true
      /\ (confidence_score (calculateRisk_result (patient 7.2 250)) <=? 1.0) = true).
Proof.
  apply (C2_probability_and_confidence_ranges loggingStore (patient 7.2 250)).
  reflexivity.
Defined.

(** ** The confidence interval *)

Lemma interval_brackets_score (i : RiskPredictionInput) :
  intervalBrackets (applyRiskModifiers (calculateBaseRiskScore i) i)
    (calculateConfidenceScore i) = true.
Proof.
  expose_score.
  abstract_bool ((HbA1c_level i > 15) || (HbA1c_level i < 3)).
  abstract_bool ((blood_glucose_level i > 600) || (blood_glucose_level i < 50)).
  abstract_bool ((bmi i > 60) || (bmi i < 15)).
  abstract_bool ((age i > 100) || (age i < 10)).
  abstract_tests i. vm_compute. reflexivity.
Qed.

(** C9. Whenever the engine returns a result, its confidence interval
    brackets its probability: lower <= probability <= upper. *)
Theorem C9_interval_brackets_probability
  (supabase : Supabase) (i : RiskPredictionInput) (r : RiskPredictionResult) :
  calculateRisk supabase i = JS.Returned r ->
  (lower (confidence_interval r) <=? probability r) = true
  /\ (probability r <=? upper (confidence_interval r)) = true.
Proof.
  intros H. apply calculateRisk_inv in H. subst r.
  apply andb_prop. exact (interval_brackets_score i).
Qed.

Lemma C9_interval_witness :
  (lower (confidence_interval (calculateRisk_result (patient 20 95)))
     <=? probability (calculateRisk_result (patient 20 95))) = true
  /\ (probability (calculateRisk_result (patient 20 95))
        <=? upper (confidence_interval (calculateRisk_result (patient 20 95)))) = true.
Proof.
  apply (C9_interval_brackets_probability failingStore (patient 20 95)).
  reflexivity.
Defined.

(** ** Stage A: the HbA1c block *)

Lemma highRisk_implies_diabetes (x : JS.number) :
  (x > RISK_THRESHOLDS.HbA1c.highRisk) = true ->
  (x >= RISK_THRESHOLDS.HbA1c.diabetes) = true.
Proof. apply gt_ge_weaken. reflexivity. Qed.

(** C8. The "> 6.9" branch of the HbA1c block of Stage A is never taken: when
    the test ">= 6.5" before it fails, so does "> 6.9".  The block therefore
    leaves the score as it is or adds 0.15 or 0.35 to it, and from the initial
    score 0 it yields 0, 0.15 or 0.35, never 0.30. *)
Theorem C8_hba1c_high_risk_branch_unreachable (i : RiskPredictionInput) :
  ~ ((HbA1c_level i >= RISK_THRESHOLDS.HbA1c.diabetes) = false
     /\ (HbA1c_level i > RISK_THRESHOLDS.HbA1c.highRisk) = true)
  /\ (forall score : JS.number,
        addHbA1c i score = score
        \/ addHbA1c i score = score + 0.15
        \/ addHbA1c i score = score + 0.35)
  /\ (addHbA1c i 0 = 0 \/ addHbA1c i 0 = 0.15 \/ addHbA1c i 0 = 0.35)
  /\ addHbA1c i 0 <> 0.30.
Proof.
  pose proof (highRisk_implies_diabetes (HbA1c_level i)) as Hdead.
  assert (Hsteps : forall score : JS.number,
             addHbA1c i score = score
             \/ addHbA1c i score = score + 0.15
             \/ addHbA1c i score = score + 0.35).
  { intros score. unfold addHbA1c.
    destruct (HbA1c_level i >= RISK_THRESHOLDS.HbA1c.diabetes); [tauto|].
    destruct (HbA1c_level i > RISK_THRESHOLDS.HbA1c.highRisk);
      [specialize (Hdead eq_refl); discriminate|].
    destruct (HbA1c_level i >= RISK_THRESHOLDS.HbA1c.normal); tauto. }
  split; [|split; [exact Hsteps|split]].
  - intros [Hlow Hhigh]. rewrite (Hdead Hhigh) in Hlow. discriminate.
  - destruct (Hsteps 0) as [H|[H|H]]; rewrite H; [left|right; left|right; right];
      vm_compute; reflexivity.
  - destruct (Hsteps 0) as [H|[H|H]]; rewrite H; vm_compute; intros E;
      apply (f_equal Prim2SF) in E; vm_compute in E; discriminate.
Qed.

(** ** Stage E: risk level and label *)

Lemma determineRiskLevel_high_or_critical (score : JS.number) :
  (determineRiskLevel score = High \/ determineRiskLevel score = Critical)
  <-> (score >= 0.6) = true.
Proof.
  unfold determineRiskLevel.
  pose proof (ge_weaken score 0.8 0.6 eq_refl) as Hmono.
  destruct (score >= 0.8); [specialize (Hmono eq_refl); rewrite Hmono; tauto|].
  destruct (score >= 0.6); [tauto|].
  destruct (score >= 0.4); intuition discriminate.
Qed.

(** C10. Whenever the engine returns a result whose risk level is High or
    Critical, which is the case exactly when its probability is at least
    0.6, the label of the result is Positive, never Negative. *)
Theorem C10_high_risk_is_positive
  (supabase : Supabase) (i : RiskPredictionInput) (r : RiskPredictionResult) :
  calculateRisk supabase i = JS.Returned r ->
  ((risk_level r = High \/ risk_level r = Critical) <-> (probability r >= 0.6) = true)
  /\ (risk_level r = High \/ risk_level r = Critical ->
      prediction_result r = Positive /\ prediction_result r <> Negative).
Proof.
  intros H. apply calculateRisk_inv in H. subst r.
  assert (Hlevel : (risk_level (calculateRisk_result i) = High
                    \/ risk_level (calculateRisk_result i) = Critical)
                   <-> (probability (calculateRisk_result i) >= 0.6) = true)
    by apply determineRiskLevel_high_or_critical.
  split; [exact Hlevel|].
  intros Hhigh. apply Hlevel in Hhigh.
  assert (Hpos : prediction_result (calculateRisk_result i) = Positive).
  { apply label_positive_iff. right. revert Hhigh. apply ge_gt_weaken. reflexivity. }
  split; [exact Hpos|]. rewrite Hpos. discriminate.
Qed.

Lemma C10_high_risk_witness :
  prediction_result (calculateRisk_result (patient 7.2 250)) = Positive
  /\ prediction_result (calculateRisk_result (patient 7.2 250)) <> Negative.
Proof.
  apply (C10_high_risk_is_positive loggingStore (patient 7.2 250));
    [reflexivity | right; reflexivity].
Defined.

(** ** Failure semantics *)

(** C3, as the specification states it, fails: the engine has no input
    validation, so an input without identity and without one finite number
    is assessed like any other. *)
Lemma C3_invalid_input_is_assessed :
  invalidInput unidentified = true
  /\ calculateRisk failingStore unidentified
     = JS.Returned (calculateRisk_result unidentified)
  /\ ~ (forall (supabase : Supabase) (i : RiskPredictionInput),
          (exists message, calculateRisk supabase i = JS.Thrown message)
          <-> invalidInput i = true).
Proof.
  split; [reflexivity|]. split; [reflexivity|].
  intros Hclaim.
  destruct (proj2 (Hclaim failingStore unidentified) eq_refl) as [message Hthrown].
  discriminate Hthrown.
Qed.

(** C3, amended. The engine never rejects an input: whatever the input
    (without patient reference, with NaN or infinite or out-of-range numbers)
    and however the persistence calls end, it returns the computed result and
    does not throw. *)
Theorem C3_engine_never_rejects (supabase : Supabase) (i : RiskPredictionInput) :
  calculateRisk supabase i = JS.Returned (calculateRisk_result i)
  /\ (forall message, calculateRisk supabase i <> JS.Thrown message).
Proof.
  rewrite calculateRisk_returns. split; [reflexivity | discriminate].
Qed.

(** ** Stage E: the flags *)

Lemma checkFlaggedConditions_rules (i : RiskPredictionInput) :
  checkFlaggedConditions i = map snd (filter (fun rule => fst rule i) flagRules).
Proof.
  cbv beta delta [checkFlaggedConditions flagRules].
  cbn [filter map fst snd].
  repeat match goal with
  | |- context [push _ (String ?c ?s)] => generalize (String c s); intro
  end.
  destruct ((blood_glucose_level i > 200) && (HbA1c_level i >= 6.5));
  destruct ((HbA1c_level i > 6.9) && (blood_glucose_level i >= 120));
  destruct ((blood_glucose_level i >= 200) && (HbA1c_level i >= 5.9));
  destruct (HbA1c_level i >= 6.5);
  destruct (blood_glucose_level i > 200);
  destruct (bmi i >= 35);
  destruct ((HbA1c_level i >= 5.7) && (blood_glucose_level i >= 126));
  destruct ((age i >= 45) && (bmi i >= 30));
  reflexivity.
Qed.

(** C7. The flags of a result are the messages of the eight rules whose
    condition holds, in the order of the rules; nothing else is ever a flag,
    and several rules can fire on one input. *)
Theorem C7_flags_follow_the_rules :
  (forall (supabase : Supabase) (i : RiskPredictionInput),
     exists r, calculateRisk supabase i = JS.Returned r
       /\ flagged_conditions r = map snd (filter (fun rule => fst rule i) flagRules)
       /\ (forall flag, In flag (flagged_conditions r) -> In flag (map snd flagRules)))
  /\ List.length flagRules = 8%nat
  /\ (exists i : RiskPredictionInput, (2 <= List.length (checkFlaggedConditions i))%nat).
Proof.
  split; [|split; [reflexivity|]].
  - intros supabase i. exists (calculateRisk_result i).
    split; [apply calculateRisk_returns|].
    change (flagged_conditions (calculateRisk_result i)) with (checkFlaggedConditions i).
    rewrite checkFlaggedConditions_rules. split; [reflexivity|].
    intros flag Hin. apply in_map_iff in Hin. destruct Hin as [rule [Hmsg Hrule]].
    apply filter_In in Hrule. apply in_map_iff. exists rule. tauto.
  - exists (patient 7.2 250). vm_compute. lia.
Qed.

(** ** Stage D: the attribution shares *)

Ltac expose_shap :=
  cbv beta delta [generateFeatureContributions calculateSHAPValues totalContribution
    hba1cContribution glucoseContribution bmiContribution ageContribution
    hypertensionContribution heartDiseaseContribution smokingContribution
    genderContribution calculateBaseRiskScore addHbA1c addBloodGlucose
    addBmi addAge addHypertension addHeartDisease addSmoking addGender];
  expose_thresholds.

Lemma shares_normalised (i : RiskPredictionInput) :
  sharesNormalised (totalContribution i)
    (generateFeatureContributions (calculateSHAPValues i) i) = true.
Proof. expose_shap. abstract_tests i. vm_compute. reflexivity. Qed.

(** The total of Stage D and the base score of Stage A vanish together. *)
Lemma totals_vanish_together (i : RiskPredictionInput) :
  (0 <? totalContribution i) = (0 <? calculateBaseRiskScore i)
  /\ (totalContribution i =? 0) = (calculateBaseRiskScore i =? 0).
Proof.
  pose proof (gt_ge_weaken (HbA1c_level i) 6.9 6.5 eq_refl) as Hh.
  pose proof (ge_weaken (blood_glucose_level i) 120 100 eq_refl) as Hg.
  enough (H : implb (implb (HbA1c_level i > 6.9) (HbA1c_level i >= 6.5)
                     && implb (blood_glucose_level i >= 120) (blood_glucose_level i >= 100))
                (Bool.eqb (0 <? totalContribution i) (0 <? calculateBaseRiskScore i)
                 && Bool.eqb (totalContribution i =? 0) (calculateBaseRiskScore i =? 0))
              = true).
  { destruct (HbA1c_level i > 6.9); [rewrite (Hh eq_refl) in H|];
      (destruct (blood_glucose_level i >= 120); [rewrite (Hg eq_refl) in H|]);
      cbn [implb andb] in H;
      try (destruct (HbA1c_level i >= 6.5)); try (destruct (blood_glucose_level i >= 100));
      cbn [implb andb] in H;
      apply andb_prop in H; destruct H as [H1 H2];
      apply eqb_prop in H1; apply eqb_prop in H2; tauto. }
  expose_shap. abstract_tests i. vm_compute. reflexivity.
Qed.

(** C5. The shares of the attribution list sum to 1 (up to rounding, within
    1e-15) when the total of the per-feature contributions is positive, and
    every share is 0 when that total is 0; the total is one or the other, and
    it is positive, or 0, exactly when the base score of Stage A is. *)
Theorem C5_attribution_shares (supabase : Supabase) (i : RiskPredictionInput) :
  exists r, calculateRisk supabase i = JS.Returned r
    /\ ((0 <? totalContribution i) = true ->
        nearOne (sumShares (feature_contributions r)) = true)
    /\ ((totalContribution i =? 0) = true ->
        forall c, In c (feature_contributions r) -> (contribution c =? 0) = true)
    /\ ((0 <? totalContribution i) = true \/ (totalContribution i =? 0) = true)
    /\ (0 <? totalContribution i) = (0 <? calculateBaseRiskScore i)
    /\ (totalContribution i =? 0) = (calculateBaseRiskScore i =? 0).
Proof.
  exists (calculateRisk_result i). split; [apply calculateRisk_returns|].
  change (feature_contributions (calculateRisk_result i))
    with (generateFeatureContributions (calculateSHAPValues i) i).
  pose proof (shares_normalised i) as H. unfold sharesNormalised in H.
  apply andb_prop in H. destruct H as [H Hcases].
  apply andb_prop in H. destruct H as [Hsum Hzero].
  split; [|split; [|split]].
  - intros Hpos. rewrite Hpos in Hsum. exact Hsum.
  - intros Hnone c Hin. rewrite Hnone in Hzero.
    exact (proj1 (forallb_forall _ _) Hzero c Hin).
  - apply orb_prop. exact Hcases.
  - exact (totals_vanish_together i).
Qed.

(** ** Stage D: the ranking of the attributions *)

Lemma sort_insert_Permutation {A : Type} (cmp : A -> A -> JS.number) (x : A) (l : list A) :
  Permutation (JS.sort_insert cmp x l) (x :: l).
Proof.
  induction l as [|y rest IH]; cbn.
  - apply Permutation_refl.
  - destruct (PrimFloat.ltb _ (cmp x y)).
    + apply perm_trans with (y :: x :: rest).
      * apply perm_skip. exact IH.
      * apply perm_swap.
    + apply Permutation_refl.
Qed.

Lemma Array_sort_Permutation {A : Type} (cmp : A -> A -> JS.number) (l : list A) :
  Permutation (JS.Array_sort cmp l) l.
Proof.
  induction l as [|x rest IH]; cbn.
  - apply perm_nil.
  - apply perm_trans with (x :: JS.Array_sort cmp rest).
    + apply sort_insert_Permutation.
    + apply perm_skip. exact IH.
Qed.

Lemma pairwise_nth_error {A : Type} (R : A -> A -> bool) (l : list A) :
  pairwise R l = true ->
  forall (j k : nat) (a b : A),
    (j < k)%nat -> nth_error l j = Some a -> nth_error l k = Some b -> R a b = true.
Proof.
  induction l as [|x rest IH]; intros Hall j k a b Hjk Ha Hb.
  - destruct j; discriminate.
  - cbn in Hall. apply andb_prop in Hall. destruct Hall as [Hx Hrest].
    destruct k as [|k]; [lia|]. cbn in Hb.
    destruct j as [|j].
    + cbn in Ha. injection Ha as ->.
      apply (proj1 (forallb_forall _ _) Hx). exact (nth_error_In _ _ Hb).
    + cbn in Ha. apply (IH Hrest j k); [lia|assumption|assumption].
Qed.

Lemma contributions_ranked (i : RiskPredictionInput) :
  pairwise (inRank engineOrder)
    (generateFeatureContributions (calculateSHAPValues i) i) = true.
Proof. expose_shap. abstract_tests i. vm_compute. reflexivity. Qed.

Lemma contribution_names (shapValues : ShapValues) (i : RiskPredictionInput) :
  Permutation (map name (generateFeatureContributions shapValues i)) engineOrder.
Proof.
  unfold generateFeatureContributions, engineOrder.
  apply perm_trans with (map name (map (toContribution shapValues i) features)).
  - apply Permutation_map. apply Array_sort_Permutation.
  - rewrite map_map. apply Permutation_refl.
Qed.

(** C6, as the specification states it, fails: with an HbA1c of 6.0 and
    hypertension as the only risks, both features have the share 0.5 and the
    list starts with the HbA1c level, although the field order of the
    specification puts hypertension before it. *)
Lemma C6_ties_not_in_spec_order :
  map name (firstn 2 (feature_contributions (calculateRisk_result (healthy 6.0 85 1))))
    = ["HbA1c Level"; "Hypertension"]
  /\ map contribution
       (firstn 2 (feature_contributions (calculateRisk_result (healthy 6.0 85 1))))
     = [0.5; 0.5]
  /\ (rankIn specFieldOrder "Hypertension" < rankIn specFieldOrder "HbA1c Level")%nat
  /\ pairwise (inRank specFieldOrder)
       (feature_contributions (calculateRisk_result (healthy 6.0 85 1))) = false
  /\ ~ (forall i : RiskPredictionInput,
          pairwise (inRank specFieldOrder)
            (feature_contributions (calculateRisk_result i)) = true).
Proof.
  split; [vm_compute; reflexivity|]. split; [vm_compute; reflexivity|].
  split; [vm_compute; lia|]. split; [vm_compute; reflexivity|].
  intros Hclaim. specialize (Hclaim (healthy 6.0 85 1)).
  vm_compute in Hclaim. discriminate Hclaim.
Qed.

(** C6, amended. The attribution list holds the eight features once each,
    in descending order of share, and two entries with equal shares stand in
    the order of the engine's feature table (HbA1c Level, Blood Glucose, BMI,
    Age, Hypertension, Heart Disease, Smoking History, Gender). *)
Theorem C6_attributions_ranked (supabase : Supabase) (i : RiskPredictionInput) :
  exists r, calculateRisk supabase i = JS.Returned r
    /\ Permutation (map name (feature_contributions r))
         [ "HbA1c Level"; "Blood Glucose"; "BMI"; "Age"; "Hypertension";
           "Heart Disease"; "Smoking History"; "Gender" ]
    /\ forall (j k : nat) (a b : FeatureContribution),
         (j < k)%nat ->
         nth_error (feature_contributions r) j = Some a ->
         nth_error (feature_contributions r) k = Some b ->
         (contribution b <=? contribution a) = true
         /\ ((contribution a =? contribution b) = true ->
             (rankIn engineOrder (name a) < rankIn engineOrder (name b))%nat).
Proof.
  exists (calculateRisk_result i). split; [apply calculateRisk_returns|].
  change (feature_contributions (calculateRisk_result i))
    with (generateFeatureContributions (calculateSHAPValues i) i).
  split; [exact (contribution_names _ i)|].
  intros j k a b Hjk Ha Hb.
  pose proof (pairwise_nth_error _ _ (contributions_ranked i) j k a b Hjk Ha Hb) as H.
  unfold inRank in H.
  destruct (contribution b <=? contribution a); [|discriminate].
  split; [reflexivity|].
  intros Heq. rewrite Heq in H. apply Nat.ltb_lt. exact H.
Qed.

(** ** Stage D against Stage A *)

Lemma float_neq (x y : float) : Prim2SF x <> Prim2SF y -> x <> y.
Proof. intros H E. apply H. rewrite E. reflexivity. Qed.

(** C4. Stage D does not recompute the Stage A contribution of blood
    glucose: for a glucose of 120 (HbA1c 6.1) Stage A adds 0.12 and Stage D
    takes 0.10, so the Stage D total differs from the base score.  For every
    input the other seven contributions of Stage D are those of Stage A, and
    the glucose contributions differ exactly in the band 120 <= glucose < 126
    that only Stage A knows. *)
Theorem C4_stage_D_misses_glucose_band :
  (addBloodGlucose (patient 6.1 120) 0 = 0.12
   /\ glucoseContribution (patient 6.1 120) = 0.10
   /\ addBloodGlucose (patient 6.1 120) 0 <> glucoseContribution (patient 6.1 120)
   /\ calculateBaseRiskScore (patient 6.1 120) <> totalContribution (patient 6.1 120))
  /\ (forall i : RiskPredictionInput,
        addHbA1c i 0 = hba1cContribution i
        /\ addBmi i 0 = bmiContribution i
        /\ addAge i 0 = ageContribution i
        /\ addHypertension i 0 = hypertensionContribution i
        /\ addHeartDisease i 0 = heartDiseaseContribution i
        /\ addSmoking i 0 = smokingContribution i
        /\ addGender i 0 = genderContribution i
        /\ (((blood_glucose_level i >= 120) = true /\ (blood_glucose_level i >= 126) = false)
            \/ addBloodGlucose i 0 = glucoseContribution i)
        /\ ((blood_glucose_level i >= 120) = true ->
            (blood_glucose_level i >= 126) = false ->
            addBloodGlucose i 0 = 0.12 /\ glucoseContribution i = 0.10)).
Proof.
  split.
  - repeat split; try (vm_compute; reflexivity);
      apply float_neq; vm_compute; discriminate.
  - intros i.
    pose proof (gt_ge_weaken (HbA1c_level i) 6.9 6.5 eq_refl) as Hdead.
    pose proof (ge_weaken (blood_glucose_level i) 200 126 eq_refl) as H200.
    pose proof (ge_weaken (blood_glucose_level i) 120 100 eq_refl) as H120.
    unfold addHbA1c, addBmi, addAge, addHypertension, addHeartDisease, addSmoking,
      addGender, addBloodGlucose, hba1cContribution, bmiContribution, ageContribution,
      hypertensionContribution, heartDiseaseContribution, smokingContribution,
      genderContribution, glucoseContribution.
    expose_thresholds.
    split; [|split; [|split; [|split; [|split; [|split; [|split; [|split]]]]]]].
    + destruct (HbA1c_level i >= 6.5); [vm_compute; reflexivity|].
      destruct (HbA1c_level i > 6.9); [specialize (Hdead eq_refl); discriminate|].
      destruct (HbA1c_level i >= 5.7); vm_compute; reflexivity.
    + destruct (bmi i >= 35), (bmi i >= 30), (bmi i >= 25); vm_compute; reflexivity.
    + destruct (age i >= 45); vm_compute; reflexivity.
    + destruct (JS.truthy (hypertension i)); vm_compute; reflexivity.
    + destruct (JS.truthy (heart_disease i)); vm_compute; reflexivity.
    + destruct (String.eqb (smoking_history i) "current"),
        (String.eqb (smoking_history i) "former"); vm_compute; reflexivity.
    + destruct (gender i === 1); vm_compute; reflexivity.
    + destruct (blood_glucose_level i >= 200); [right; vm_compute; reflexivity|].
      destruct (blood_glucose_level i >= 126); [right; vm_compute; reflexivity|].
      destruct (blood_glucose_level i >= 120); [left; split; reflexivity|].
      right. destruct (blood_glucose_level i >= 100); vm_compute; reflexivity.
    + intros Hin Hout.
      destruct (blood_glucose_level i >= 200);
        [rewrite (H200 eq_refl) in Hout; discriminate|].
      rewrite Hout, Hin, (H120 Hin). split; vm_compute; reflexivity.
Qed.

(** ** The shares are fractions *)

Lemma shares_are_fractions (i : RiskPredictionInput) :
  forallb isFraction (generateFeatureContributions (calculateSHAPValues i) i) = true.
Proof. expose_shap. abstract_tests i. vm_compute. reflexivity. Qed.

(** Every share of the attribution list of a result lies in [0,1]. *)
Theorem attribution_shares_are_fractions
  (supabase : Supabase) (i : RiskPredictionInput) :
  exists r, calculateRisk supabase i = JS.Returned r
    /\ forall c, In c (feature_contributions r) ->
         (0 <=? contribution c) = true /\ (contribution c <=? 1) = true.
Proof.
  exists (calculateRisk_result i). split; [apply calculateRisk_returns|].
  intros c Hin. apply andb_prop.
  exact (proj1 (forallb_forall _ _) (shares_are_fractions i) c Hin).
Qed.

(** ** Worked examples *)

(** The diabetic patient of the specification: Positive, Critical, with the
    CRITICAL flag. *)
Example diabetic_patient_is_critical :
  let r := calculateRisk_result (testPatient 55 1 32 1 0 "former" 7.2 250) in
  prediction_result r = Positive
  /\ risk_level r = Critical
  /\ existsb (fun flag => JS.includes flag "CRITICAL") (flagged_conditions r) = true.
Proof. vm_compute. repeat split. Qed.

(** The healthy patient of the specification: Negative, Low, with a
    confidence above 0.7. *)
Example healthy_patient_is_low :
  let r := calculateRisk_result (testPatient 35 0 22 0 0 "never" 5.2 85) in
  prediction_result r = Negative
  /\ risk_level r = Low
  /\ (confidence_score r > 0.7) = true.
Proof. vm_compute. repeat split. Qed.

(** An HbA1c of 20 is out of the medical range: the result is returned all
    the same, with a confidence below 0.7. *)
Example implausible_hba1c_lowers_confidence :
  forall supabase : Supabase,
  exists r, calculateRisk supabase (testPatient 35 0 22 0 0 "never" 20 85) = JS.Returned r
    /\ (confidence_score r < 0.7) = true.
Proof.
  intros supabase. eexists. split; [apply calculateRisk_returns|].
  vm_compute. reflexivity.
Qed.

(** Glucose 220 with HbA1c 6.8: the exact CRITICAL message is among the
    flags and the level is Critical, also for an otherwise healthy patient,
    whose probability 0.35 + 0.25 + 0.20 rounds to no less than 0.8. *)
Example critical_combination_is_flagged :
  let r := calculateRisk_result (testPatient 35 0 22 0 0 "never" 6.8 220) in
  In "CRITICAL: Blood glucose > 200 mg/dL AND HbA1c ≥ 6.5% - Immediate medical attention required"
     (flagged_conditions r)
  /\ risk_level r = Critical
  /\ (probability r >= 0.8) = true.
Proof. vm_compute. split; [left; reflexivity | split; reflexivity]. Qed.

(** The sum of the shares is not always 1 exactly: for the diabetic patient
    of the specification it is the float just below. *)
Example shares_sum_below_one :
  sumShares (feature_contributions
               (calculateRisk_result (testPatient 55 1 32 1 0 "former" 7.2 250)))
  = 0x1.fffffffffffffp-1.
Proof. vm_compute. reflexivity. Qed.

(** ** The entries of the attribution list *)

Section FloatFacts.

Lemma strict_eq_one_truthy (x : JS.number) : (x === 1) = true -> JS.truthy x = true.
Proof.
  unfold JS.strict_eq, JS.truthy, is_nan, is_zero. rewrite !FloatAxioms.eqb_spec.
  let one := eval vm_compute in (Prim2SF 1) in change (Prim2SF 1) with one.
  let zero := eval vm_compute in (Prim2SF PrimFloat.zero) in
    change (Prim2SF PrimFloat.zero) with zero.
  destruct (Prim2SF x) as [s|s| |s m e]; unfold SFeqb, SFcompare.
  - destruct s; intros H; discriminate H.
  - destruct s; intros H; discriminate H.
  - intros H; discriminate H.
  - destruct s; [intros H; discriminate H|].
    rewrite Z.compare_refl, Pos.compare_cont_refl. intros _. reflexivity.
Qed.

Lemma truthy_not_zero (x : JS.number) : JS.truthy x = true -> (x === 0) = false.
Proof.
  unfold JS.truthy, JS.strict_eq, is_zero. change PrimFloat.zero with 0%float.
  destruct (is_nan x), (x =? 0)%float; cbn; intros H; (reflexivity || discriminate H).
Qed.

End FloatFacts.

Lemma shares_reflect_contributions (i : RiskPredictionInput) :
  forallb (shareReflects (calculateSHAPValues i) i) features = true.
Proof.
  change ((let shapValues := calculateSHAPValues i in
           forallb (shareReflects shapValues i) features) = true).
  cbv beta iota delta [shareReflects rawContribution forallb features shap_get feature_key
    String.eqb Ascii.eqb Bool.eqb].
  expose_shap. abstract_tests i. vm_compute. reflexivity.
Qed.

Lemma contribution_entries (shapValues : ShapValues) (i : RiskPredictionInput)
  (c : FeatureContribution) :
  In c (generateFeatureContributions shapValues i) ->
  exists feature, In feature features /\ c = toContribution shapValues i feature.
Proof.
  intros Hin. unfold generateFeatureContributions in Hin.
  apply (Permutation_in _ (Array_sort_Permutation _ _)) in Hin.
  apply in_map_iff in Hin. destruct Hin as [feature [Hc Hf]].
  exists feature. split; [exact Hf | symmetry; exact Hc].
Qed.

(** What [shareReflects] says of one entry of the list. *)
Lemma entry_share (i : RiskPredictionInput) (feature : Feature) :
  In feature features ->
  let c := toContribution (calculateSHAPValues i) i feature in
  shap_get (calculateSHAPValues i) (feature_key feature) = Some (contribution c)
  /\ ((0 <? rawContribution i (feature_key feature)) = true ->
      (0 <? contribution c) = true /\ (contribution c =? 0) = false)
  /\ ((0 <? rawContribution i (feature_key feature)) = false ->
      contribution c = 0).
Proof.
  intros Hin. cbv zeta.
  pose proof (proj1 (forallb_forall _ _) (shares_reflect_contributions i) feature Hin) as H.
  unfold shareReflects in H. cbn [toContribution contribution].
  apply andb_prop in H. destruct H as [Hget Hraw].
  split; [|split].
  - destruct (shap_get (calculateSHAPValues i) (feature_key feature)) as [v|];
      [|discriminate].
    apply FloatAxioms.Leibniz.eqb_spec in Hget. rewrite Hget. reflexivity.
  - intros Hpos. rewrite Hpos in Hraw. apply andb_prop in Hraw.
    destruct Hraw as [H1 H2]. split; [exact H1|]. apply negb_true_iff. exact H2.
  - intros Hnone. rewrite Hnone in Hraw. apply andb_prop in Hraw.
    destruct Hraw as [_ H2]. apply FloatAxioms.Leibniz.eqb_spec in H2. exact H2.
Qed.

(** The outcomes of the tests on the input, case by case; a case that the
    order of numbers excludes is closed by the fact that excludes it. *)
Ltac split_tests i :=
  repeat match goal with
  | |- context [JS.ge (?f i) ?c] => destruct (JS.ge (f i) c) eqn:?
  | |- context [JS.gt (?f i) ?c] => destruct (JS.gt (f i) c) eqn:?
  | |- context [JS.lt (?f i) ?c] => destruct (JS.lt (f i) c) eqn:?
  | |- context [JS.strict_eq (?f i) ?c] => destruct (JS.strict_eq (f i) c) eqn:?
  | |- context [JS.truthy (?f i)] => destruct (JS.truthy (f i)) eqn:?
  | |- context [String.eqb (?f i) ?c] => destruct (String.eqb (f i) c) eqn:?
  end.

Ltac excluded :=
  exfalso;
  repeat match goal with
  | H : true = true -> _ |- _ => specialize (H eq_refl)
  | H : ?a = true -> _, Ha : ?a = true |- _ => specialize (H Ha)
  end;
  first
    [ congruence
    | match goal with
      | Hc : true = _ |- _ =>
          repeat match goal with
          | H : ?a = false |- _ => rewrite H in Hc
          end;
          repeat match type of Hc with
          | context [JS.strict_eq ?x ?c] => destruct (JS.strict_eq x c)
          end;
          discriminate Hc
      end ].

Lemma feature_consistent (i : RiskPredictionInput) (feature : Feature) :
  In feature features -> featureConsistent i feature = true.
Proof.
  intros Hin.
  pose proof (ge_weaken (HbA1c_level i) 6.5 5.7 eq_refl).
  pose proof (ge_weaken (blood_glucose_level i) 200 100 eq_refl).
  pose proof (ge_weaken (blood_glucose_level i) 126 100 eq_refl).
  pose proof (ge_weaken (bmi i) 35 25 eq_refl).
  pose proof (ge_weaken (bmi i) 30 25 eq_refl).
  pose proof (ge_weaken (age i) 65 45 eq_refl).
  pose proof (strict_eq_one_truthy (hypertension i)).
  pose proof (strict_eq_one_truthy (heart_disease i)).
  pose proof (truthy_not_zero (hypertension i)).
  pose proof (truthy_not_zero (heart_disease i)).
  unfold featureConsistent.
  remember (codedAsFlags i) as coded eqn:Hcoded. unfold codedAsFlags in Hcoded.
  repeat (destruct Hin as [<-|Hin]); try contradiction;
    cbv beta iota zeta delta [rawContribution isRiskFactor generateFeatureDescription
      feature_key
      hba1cContribution glucoseContribution bmiContribution ageContribution
      hypertensionContribution heartDiseaseContribution smokingContribution
      genderContribution];
    cbn [String.eqb Ascii.eqb Bool.eqb];
    expose_thresholds; split_tests i;
    try first [ vm_compute; reflexivity | excluded ];
    destruct coded; try first [ vm_compute; reflexivity | excluded ].
Qed.

Lemma entry_characterised (i : RiskPredictionInput) (c : FeatureContribution) :
  In c (generateFeatureContributions (calculateSHAPValues i) i) ->
  exists feature, In feature features
    /\ name c = feature_name feature
    /\ shap_get (calculateSHAPValues i) (feature_key feature) = Some (contribution c)
    /\ (risk_factor c = true -> (0 <? contribution c) = true)
    /\ (codedAsFlags i = true -> (0 <? contribution c) = true -> risk_factor c = true)
    /\ benign (description c) = (contribution c =? 0).
Proof.
  intros Hin. apply contribution_entries in Hin. destruct Hin as [feature [Hf ->]].
  exists feature. split; [exact Hf|]. split; [reflexivity|].
  destruct (entry_share i feature Hf) as [Hget [Hpos Hnone]].
  split; [exact Hget|].
  pose proof (feature_consistent i feature Hf) as H. unfold featureConsistent in H.
  cbv zeta in H. apply andb_prop in H. destruct H as [H Hbenign].
  apply andb_prop in H. destruct H as [Hrisk Hcoded].
  cbn [risk_factor description toContribution].
  destruct (0 <? rawContribution i (feature_key feature)).
  - destruct (Hpos eq_refl) as [Hshare Hnonzero]. rewrite Hshare, Hnonzero.
    split; [reflexivity|]. split.
    + intros Hc _. rewrite Hc in Hcoded. exact Hcoded.
    + apply eqb_prop in Hbenign. exact Hbenign.
  - rewrite (Hnone eq_refl). split; [|split].
    + intros Hr. rewrite Hr in Hrisk. discriminate Hrisk.
    + intros _ Hshare. vm_compute in Hshare. discriminate Hshare.
    + apply eqb_prop in Hbenign. rewrite Hbenign. vm_compute. reflexivity.
Qed.

(** An attribution flagged as a risk factor has a positive share. *)
Theorem risk_factors_have_a_share (supabase : Supabase) (i : RiskPredictionInput) :
  exists r, calculateRisk supabase i = JS.Returned r
    /\ forall c, In c (feature_contributions r) ->
         risk_factor c = true -> (0 <? contribution c) = true.
Proof.
  exists (calculateRisk_result i). split; [apply calculateRisk_returns|].
  intros c Hin. destruct (entry_characterised i c Hin) as [_ [_ [_ [_ [H _]]]]].
  exact H.
Qed.

Lemma risk_factor_iff_share (i : RiskPredictionInput) (c : FeatureContribution) :
  codedAsFlags i = true ->
  In c (generateFeatureContributions (calculateSHAPValues i) i) ->
  risk_factor c = (0 <? contribution c).
Proof.
  intros Hcoded Hin.
  destruct (entry_characterised i c Hin) as [_ [_ [_ [_ [Hrisk [Hshare _]]]]]].
  destruct (risk_factor c) eqn:Hc.
  - symmetry. exact (Hrisk eq_refl).
  - destruct (0 <? contribution c); [|reflexivity].
    exact (Hshare Hcoded eq_refl).
Qed.

(** When hypertension and heart disease are coded 0 or 1, the attributions
    flagged as risk factors are exactly those with a positive share. *)
Theorem risk_factors_are_the_contributors
  (supabase : Supabase) (i : RiskPredictionInput) (r : RiskPredictionResult)
  (c : FeatureContribution) :
  codedAsFlags i = true ->
  calculateRisk supabase i = JS.Returned r ->
  In c (feature_contributions r) ->
  risk_factor c = (0 <? contribution c).
Proof.
  intros Hcoded Hr Hin. apply calculateRisk_inv in Hr. subst r.
  exact (risk_factor_iff_share i c Hcoded Hin).
Qed.

Lemma risk_factors_witness :
  risk_factor (toContribution (calculateSHAPValues (patient 6.1 120)) (patient 6.1 120)
                 {| feature_name := "Hypertension"; feature_key := "hypertension" |})
  = (0 <? contribution
            (toContribution (calculateSHAPValues (patient 6.1 120)) (patient 6.1 120)
               {| feature_name := "Hypertension"; feature_key := "hypertension" |})).
Proof.
  apply (risk_factors_are_the_contributors loggingStore (patient 6.1 120)
           (calculateRisk_result (patient 6.1 120))).
  - reflexivity.
  - reflexivity.
  - vm_compute. tauto.
Defined.

(** Without that coding the two can differ: a hypertension field of 2
    contributes to the score without being flagged as a risk factor. *)
Example uncoded_hypertension_is_not_flagged :
  exists c, In c (feature_contributions (calculateRisk_result (healthy 5 85 2)))
    /\ name c = "Hypertension"
    /\ contribution c = 1 /\ risk_factor c = false.
Proof.
  eexists. split; [left; reflexivity|]. vm_compute. repeat split.
Qed.

(** The description of an attribution is one of the "Normal: ..." and
    "Low: ..." texts exactly when its share is 0. *)
Theorem benign_descriptions_have_no_share
  (supabase : Supabase) (i : RiskPredictionInput) :
  exists r, calculateRisk supabase i = JS.Returned r
    /\ forall c, In c (feature_contributions r) ->
         benign (description c) = (contribution c =? 0).
Proof.
  exists (calculateRisk_result i). split; [apply calculateRisk_returns|].
  intros c Hin. destruct (entry_characterised i c Hin) as [_ [_ [_ [_ [_ [_ H]]]]]].
  exact H.
Qed.

(** The ranked list carries the values of the [shap_values] record: every
    entry is a feature of the table with, as its share, the property of the
    record under the key of the feature. *)
Theorem attributions_list_the_shap_values
  (supabase : Supabase) (i : RiskPredictionInput) :
  exists r, calculateRisk supabase i = JS.Returned r
    /\ forall c, In c (feature_contributions r) ->
         exists feature, In feature features
           /\ name c = feature_name feature
           /\ shap_get (shap_values r) (feature_key feature) = Some (contribution c).
Proof.
  exists (calculateRisk_result i). split; [apply calculateRisk_returns|].
  intros c Hin. destruct (entry_characterised i c Hin) as [feature [Hf [Hn [Hget _]]]].
  exists feature. split; [exact Hf|]. split; [exact Hn | exact Hget].
Qed.

(** ** Flags, label and level together *)

Lemma gt_implies_ge (x c : JS.number) :
  (c <=? c) = true -> (x > c) = true -> (x >= c) = true.
Proof. apply gt_ge_weaken. Qed.

Lemma critical_flag_iff (i : RiskPredictionInput) :
  In criticalFlag (checkFlaggedConditions i)
  <-> (blood_glucose_level i > 200) && (HbA1c_level i >= 6.5) = true.
Proof.
  assert (H : Bool.eqb (existsb (String.eqb criticalFlag) (checkFlaggedConditions i))
                ((blood_glucose_level i > 200) && (HbA1c_level i >= 6.5)) = true).
  { cbv beta delta [checkFlaggedConditions]. abstract_tests i. vm_compute. reflexivity. }
  apply eqb_prop in H. rewrite <- H. split.
  - intros Hin. apply existsb_exists. exists criticalFlag.
    split; [exact Hin | apply String.eqb_refl].
  - intros Hex. apply existsb_exists in Hex. destruct Hex as [flag [Hin Heq]].
    apply String.eqb_eq in Heq. subst flag. exact Hin.
Qed.

Lemma critical_combination_counts (i : RiskPredictionInput) :
  (blood_glucose_level i > 200) && (HbA1c_level i >= 6.5) = true ->
  isCritical (determineRiskLevel (applyRiskModifiers (calculateBaseRiskScore i) i))
  && Nat.leb 5 (List.length (checkFlaggedConditions i)) = true.
Proof.
  intros Hcrit.
  pose proof (gt_implies_ge (blood_glucose_level i) 200 eq_refl) as H200.
  pose proof (ge_weaken (blood_glucose_level i) 200 126 eq_refl) as H126.
  pose proof (ge_weaken (HbA1c_level i) 6.5 5.9 eq_refl) as H59.
  pose proof (ge_weaken (HbA1c_level i) 6.5 5.7 eq_refl) as H57.
  apply andb_prop in Hcrit. destruct Hcrit as [Hg Hh].
  specialize (H200 Hg). specialize (H126 H200). specialize (H59 Hh). specialize (H57 Hh).
  apply andb_true_intro. split.
  - revert Hg Hh H200.
    enough (H : implb ((blood_glucose_level i > 200) && (HbA1c_level i >= 6.5)
                       && (blood_glucose_level i >= 200))
                  (isCritical (determineRiskLevel
                     (applyRiskModifiers (calculateBaseRiskScore i) i))) = true)
      by (intros Hg Hh H200; rewrite Hg, Hh, H200 in H; exact H).
    expose_score. abstract_tests i. vm_compute. reflexivity.
  - cbv beta delta [checkFlaggedConditions].
    rewrite Hg, Hh, H200, H126, H59, H57. cbn [andb].
    destruct (HbA1c_level i > 6.9), (blood_glucose_level i >= 120), (bmi i >= 35),
      (age i >= 45), (bmi i >= 30); reflexivity.
Qed.

(** A result that carries the CRITICAL flag has the risk level Critical and
    the label Positive, and at least five flags in all. *)
Theorem critical_flag_means_critical_level
  (supabase : Supabase) (i : RiskPredictionInput) (r : RiskPredictionResult) :
  calculateRisk supabase i = JS.Returned r ->
  In criticalFlag (flagged_conditions r) ->
  risk_level r = Critical
  /\ prediction_result r = Positive
  /\ (5 <= List.length (flagged_conditions r))%nat.
Proof.
  intros Hr Hflag. apply calculateRisk_inv in Hr. subst r.
  change (flagged_conditions (calculateRisk_result i)) with (checkFlaggedConditions i) in *.
  apply critical_flag_iff in Hflag.
  pose proof (critical_combination_counts i Hflag) as H.
  apply andb_prop in H. destruct H as [Hlevel Hcount].
  split; [|split].
  - change (risk_level (calculateRisk_result i))
      with (determineRiskLevel (applyRiskModifiers (calculateBaseRiskScore i) i)).
    destruct (determineRiskLevel _); try discriminate Hlevel. reflexivity.
  - apply label_positive_iff. left. apply shouldForcePositive_spec.
    apply andb_prop in Hflag. tauto.
  - apply Nat.leb_le. exact Hcount.
Qed.

Lemma critical_flag_witness :
  risk_level (calculateRisk_result (healthy 6.8 220 0)) = Critical
  /\ prediction_result (calculateRisk_result (healthy 6.8 220 0)) = Positive
  /\ le 5 (List.length (flagged_conditions (calculateRisk_result (healthy 6.8 220 0)))).
Proof.
  apply (critical_flag_means_critical_level loggingStore (healthy 6.8 220 0)).
  - reflexivity.
  - left. reflexivity.
Defined.

Lemma unforced_flags (i : RiskPredictionInput) :
  shouldForcePositive i = false ->
  forallb (fun flag => existsb (String.eqb flag) bodyMassFlags) (checkFlaggedConditions i)
  = true.
Proof.
  intros Hforce.
  pose proof (gt_ge_weaken (HbA1c_level i) 6.9 6.5 eq_refl) as H69.
  pose proof (ge_weaken (blood_glucose_level i) 200 126 eq_refl) as H200.
  pose proof (gt_ge_weaken (blood_glucose_level i) 200 126 eq_refl) as Hg.
  revert Hforce. unfold shouldForcePositive. expose_thresholds.
  cbv beta delta [checkFlaggedConditions].
  destruct (HbA1c_level i >= 6.5);
    [destruct ((HbA1c_level i > 6.9) && (blood_glucose_level i >= 120)),
       ((blood_glucose_level i >= 200) && (HbA1c_level i >= 5.9)); discriminate|].
  destruct (blood_glucose_level i >= 126);
    [destruct ((HbA1c_level i > 6.9) && (blood_glucose_level i >= 120)),
       ((blood_glucose_level i >= 200) && (HbA1c_level i >= 5.9)); discriminate|].
  destruct (HbA1c_level i > 6.9); [specialize (H69 eq_refl); discriminate|].
  destruct (blood_glucose_level i >= 200); [specialize (H200 eq_refl); discriminate|].
  destruct (blood_glucose_level i > 200); [specialize (Hg eq_refl); discriminate|].
  intros _. cbn [andb].
  rewrite ?andb_false_r.
  destruct (bmi i >= 35), ((age i >= 45) && (bmi i >= 30)); vm_compute; reflexivity.
Qed.

(** A result labelled Negative carries no flag about HbA1c or glucose: its
    flags are among "Severe obesity (BMI ≥ 35)" and "Age ≥ 45 and obesity
    combination". *)
Theorem negative_results_have_only_body_mass_flags
  (supabase : Supabase) (i : RiskPredictionInput) (r : RiskPredictionResult) :
  calculateRisk supabase i = JS.Returned r ->
  prediction_result r = Negative ->
  forall flag, In flag (flagged_conditions r) -> In flag bodyMassFlags.
Proof.
  intros Hr Hneg flag Hin. apply calculateRisk_inv in Hr. subst r.
  change (flagged_conditions (calculateRisk_result i)) with (checkFlaggedConditions i) in Hin.
  assert (Hforce : shouldForcePositive i = false).
  { destruct (shouldForcePositive i) eqn:Hf; [|reflexivity].
    assert (Hpos : prediction_result (calculateRisk_result i) = Positive)
      by (apply label_positive_iff; left; exact Hf).
    rewrite Hpos in Hneg. discriminate Hneg. }
  pose proof (proj1 (forallb_forall _ _) (unforced_flags i Hforce) flag Hin) as H.
  apply existsb_exists in H. destruct H as [known [Hknown Heq]].
  apply String.eqb_eq in Heq. subst known. exact Hknown.
Qed.

Lemma negative_flags_witness :
  exists flag,
    In flag (flagged_conditions (calculateRisk_result (testPatient 50 0 36 0 0 "never" 5 90)))
    /\ In flag bodyMassFlags.
Proof.
  exists "HIGH RISK: Severe obesity (BMI ≥ 35)". split.
  - vm_compute. left. reflexivity.
  - apply (negative_results_have_only_body_mass_flags loggingStore
             (testPatient 50 0 36 0 0 "never" 5 90) _ eq_refl eq_refl).
    vm_compute. left. reflexivity.
Defined.

(** ** A worse reading never lowers the risk *)

Lemma ge_mono (a b c : JS.number) :
  (a <=? b) = true -> (a >= c) = true -> (b >= c) = true.
Proof. unfold JS.ge. intros Hab Hca. exact (leb_trans _ _ _ Hca Hab). Qed.

Lemma gt_mono (a b c : JS.number) :
  (a <=? b) = true -> (a > c) = true -> (b > c) = true.
Proof. unfold JS.gt. intros Hab Hca. exact (ltb_leb_trans _ _ _ Hca Hab). Qed.

Ltac abstract_value x :=
  repeat match goal with
  | |- context [JS.ge x ?c] => abstract_bool (JS.ge x c)
  | |- context [JS.gt x ?c] => abstract_bool (JS.gt x c)
  | |- context [JS.lt x ?c] => abstract_bool (JS.lt x c)
  | |- context [JS.truthy x] => abstract_bool (JS.truthy x)
  end.

Ltac project_changed :=
  repeat match goal with
  | |- context [?f (?w ?i ?x)] =>
      lazymatch w with
      | withHbA1c => idtac
      | withBloodGlucose => idtac
      | withBmi => idtac
      | withAge => idtac
      | withHypertension => idtac
      | withHeartDisease => idtac
      end;
      let v := eval cbn in (f (w i x)) in
      progress change (f (w i x)) with v
  end.

Ltac expose_changed :=
  cbv beta delta [riskScore]; expose_score; project_changed.

Lemma riskScore_mono_HbA1c (i : RiskPredictionInput) (x : JS.number) :
  (HbA1c_level i <=? x) = true ->
  (riskScore i <=? riskScore (withHbA1c i x)) = true.
Proof.
  intros Hle.
  pose proof (ge_mono _ _ 6.5 Hle) as H65. pose proof (ge_mono _ _ 5.7 Hle) as H57.
  pose proof (ge_mono _ _ 6.0 Hle) as H60. pose proof (gt_mono _ _ 6.9 Hle) as H69.
  enough (H : implb (implb (HbA1c_level i >= 6.5) (x >= 6.5)
                     && implb (HbA1c_level i >= 5.7) (x >= 5.7)
                     && implb (HbA1c_level i >= 6.0) (x >= 6.0)
                     && implb (HbA1c_level i > 6.9) (x > 6.9))
                (riskScore i <=? riskScore (withHbA1c i x)) = true).
  { destruct (HbA1c_level i >= 6.5); [rewrite (H65 eq_refl) in H|];
    (destruct (HbA1c_level i >= 5.7); [rewrite (H57 eq_refl) in H|]);
    (destruct (HbA1c_level i >= 6.0); [rewrite (H60 eq_refl) in H|]);
    (destruct (HbA1c_level i > 6.9); [rewrite (H69 eq_refl) in H|]);
    cbn [implb andb] in H; exact H. }
  expose_changed. (abstract_value x; abstract_tests i). vm_compute. reflexivity.
Qed.

Lemma riskScore_mono_glucose (i : RiskPredictionInput) (x : JS.number) :
  (blood_glucose_level i <=? x) = true ->
  (riskScore i <=? riskScore (withBloodGlucose i x)) = true.
Proof.
  intros Hle.
  pose proof (ge_mono _ _ 200 Hle) as H200. pose proof (ge_mono _ _ 126 Hle) as H126.
  pose proof (ge_mono _ _ 120 Hle) as H120. pose proof (ge_mono _ _ 100 Hle) as H100.
  pose proof (gt_mono _ _ 200 Hle) as Hgt.
  enough (H : implb (implb (blood_glucose_level i >= 200) (x >= 200)
                     && implb (blood_glucose_level i >= 126) (x >= 126)
                     && implb (blood_glucose_level i >= 120) (x >= 120)
                     && implb (blood_glucose_level i >= 100) (x >= 100)
                     && implb (blood_glucose_level i > 200) (x > 200))
                (riskScore i <=? riskScore (withBloodGlucose i x)) = true).
  { destruct (blood_glucose_level i >= 200); [rewrite (H200 eq_refl) in H|];
    (destruct (blood_glucose_level i >= 126); [rewrite (H126 eq_refl) in H|]);
    (destruct (blood_glucose_level i >= 120); [rewrite (H120 eq_refl) in H|]);
    (destruct (blood_glucose_level i >= 100); [rewrite (H100 eq_refl) in H|]);
    (destruct (blood_glucose_level i > 200); [rewrite (Hgt eq_refl) in H|]);
    cbn [implb andb] in H; exact H. }
  expose_changed. (abstract_value x; abstract_tests i). vm_compute. reflexivity.
Qed.

Lemma riskScore_mono_bmi (i : RiskPredictionInput) (x : JS.number) :
  (bmi i <=? x) = true ->
  (riskScore i <=? riskScore (withBmi i x)) = true.
Proof.
  intros Hle.
  pose proof (ge_mono _ _ 35 Hle) as H35. pose proof (ge_mono _ _ 30 Hle) as H30.
  pose proof (ge_mono _ _ 25 Hle) as H25.
  enough (H : implb (implb (bmi i >= 35) (x >= 35)
                     && implb (bmi i >= 30) (x >= 30)
                     && implb (bmi i >= 25) (x >= 25))
                (riskScore i <=? riskScore (withBmi i x)) = true).
  { destruct (bmi i >= 35); [rewrite (H35 eq_refl) in H|];
    (destruct (bmi i >= 30); [rewrite (H30 eq_refl) in H|]);
    (destruct (bmi i >= 25); [rewrite (H25 eq_refl) in H|]);
    cbn [implb andb] in H; exact H. }
  expose_changed. (abstract_value x; abstract_tests i). vm_compute. reflexivity.
Qed.

Lemma riskScore_mono_age (i : RiskPredictionInput) (x : JS.number) :
  (age i <=? x) = true ->
  (riskScore i <=? riskScore (withAge i x)) = true.
Proof.
  intros Hle.
  pose proof (ge_mono _ _ 45 Hle) as H45.
  enough (H : implb (implb (age i >= 45) (x >= 45))
                (riskScore i <=? riskScore (withAge i x)) = true).
  { destruct (age i >= 45); [rewrite (H45 eq_refl) in H|]; cbn [implb] in H; exact H. }
  expose_changed. (abstract_value x; abstract_tests i). vm_compute. reflexivity.
Qed.

Lemma riskScore_mono_hypertension (i : RiskPredictionInput) (x : JS.number) :
  (JS.truthy (hypertension i) = true -> JS.truthy x = true) ->
  (riskScore i <=? riskScore (withHypertension i x)) = true.
Proof.
  intros Hx.
  enough (H : implb (implb (JS.truthy (hypertension i)) (JS.truthy x))
                (riskScore i <=? riskScore (withHypertension i x)) = true).
  { destruct (JS.truthy (hypertension i)); [rewrite (Hx eq_refl) in H|];
      cbn [implb] in H; exact H. }
  expose_changed. abstract_value x; abstract_tests i. vm_compute. reflexivity.
Qed.

Lemma riskScore_mono_heart_disease (i : RiskPredictionInput) (x : JS.number) :
  (JS.truthy (heart_disease i) = true -> JS.truthy x = true) ->
  (riskScore i <=? riskScore (withHeartDisease i x)) = true.
Proof.
  intros Hx.
  enough (H : implb (implb (JS.truthy (heart_disease i)) (JS.truthy x))
                (riskScore i <=? riskScore (withHeartDisease i x)) = true).
  { destruct (JS.truthy (heart_disease i)); [rewrite (Hx eq_refl) in H|];
      cbn [implb] in H; exact H. }
  expose_changed. abstract_value x; abstract_tests i. vm_compute. reflexivity.
Qed.

(** The score reads the input through eight of its fields. *)
Lemma riskScore_ext (a b : RiskPredictionInput) :
  age a = age b -> gender a = gender b -> bmi a = bmi b ->
  hypertension a = hypertension b -> heart_disease a = heart_disease b ->
  smoking_history a = smoking_history b -> HbA1c_level a = HbA1c_level b ->
  blood_glucose_level a = blood_glucose_level b ->
  riskScore a = riskScore b.
Proof.
  intros Ha Hg Hb Hh Hd Hs Hl Hu.
  unfold riskScore, applyRiskModifiers, calculateBaseRiskScore, addHbA1c, addBloodGlucose,
    addBmi, addAge, addHypertension, addHeartDisease, addSmoking, addGender.
  rewrite Ha, Hg, Hb, Hh, Hd, Hs, Hl, Hu. reflexivity.
Qed.

Lemma riskScore_mono (a b : RiskPredictionInput) :
  atLeastAsSevere a b -> (riskScore a <=? riskScore b) = true.
Proof.
  intros [Hg [Hs [Hh [Hd [Hage [Hbmi [Hl Hu]]]]]]].
  set (i1 := withHbA1c a (HbA1c_level b)).
  set (i2 := withBloodGlucose i1 (blood_glucose_level b)).
  set (i3 := withBmi i2 (bmi b)).
  set (i4 := withAge i3 (age b)).
  set (i5 := withHypertension i4 (hypertension b)).
  set (i6 := withHeartDisease i5 (heart_disease b)).
  rewrite <- (riskScore_ext i6 b) by (try reflexivity; assumption).
  apply leb_trans with (riskScore i5); [|apply riskScore_mono_heart_disease; exact Hd].
  apply leb_trans with (riskScore i4); [|apply riskScore_mono_hypertension; exact Hh].
  apply leb_trans with (riskScore i3); [|apply riskScore_mono_age; exact Hage].
  apply leb_trans with (riskScore i2); [|apply riskScore_mono_bmi; exact Hbmi].
  apply leb_trans with (riskScore i1); [|apply riskScore_mono_glucose; exact Hu].
  apply riskScore_mono_HbA1c. exact Hl.
Qed.

Lemma shouldForcePositive_mono (a b : RiskPredictionInput) :
  (HbA1c_level a <=? HbA1c_level b) = true ->
  (blood_glucose_level a <=? blood_glucose_level b) = true ->
  shouldForcePositive a = true -> shouldForcePositive b = true.
Proof.
  intros Hl Hu Ha. apply shouldForcePositive_spec. apply shouldForcePositive_spec in Ha.
  destruct Ha as [[H1 H2]|[[H1 H2]|[H|H]]].
  - left. split; [exact (gt_mono _ _ _ Hl H1) | exact (ge_mono _ _ _ Hu H2)].
  - right; left. split; [exact (ge_mono _ _ _ Hu H1) | exact (ge_mono _ _ _ Hl H2)].
  - right; right; left. exact (ge_mono _ _ _ Hl H).
  - right; right; right. exact (ge_mono _ _ _ Hu H).
Qed.

(** A patient who is at least as severe as another in every respect gets a
    probability that is at least as high, and is labelled Positive if the
    other is. *)
Theorem severity_never_lowers_the_risk
  (supabase : Supabase) (a b : RiskPredictionInput) :
  atLeastAsSevere a b ->
  exists ra rb,
    calculateRisk supabase a = JS.Returned ra
    /\ calculateRisk supabase b = JS.Returned rb
    /\ (probability ra <=? probability rb) = true
    /\ (prediction_result ra = Positive -> prediction_result rb = Positive).
Proof.
  intros Hsevere.
  exists (calculateRisk_result a), (calculateRisk_result b).
  split; [apply calculateRisk_returns|]. split; [apply calculateRisk_returns|].
  pose proof (riskScore_mono a b Hsevere) as Hscore.
  split; [exact Hscore|].
  intros Ha. apply label_positive_iff in Ha. apply label_positive_iff.
  destruct Hsevere as [_ [_ [_ [_ [_ [_ [Hl Hu]]]]]]].
  destruct Ha as [Hforce|Hhalf].
  - left. exact (shouldForcePositive_mono a b Hl Hu Hforce).
  - right. unfold JS.gt in *. exact (ltb_leb_trans _ _ _ Hhalf Hscore).
Qed.

Lemma severity_witness :
  exists ra rb,
    calculateRisk loggingStore (healthy 5 85 0) = JS.Returned ra
    /\ calculateRisk loggingStore (healthy 6.8 220 1) = JS.Returned rb
    /\ (probability ra <=? probability rb) = true
    /\ (prediction_result ra = Positive -> prediction_result rb = Positive).
Proof.
  apply (severity_never_lowers_the_risk loggingStore (healthy 5 85 0) (healthy 6.8 220 1)).
  unfold atLeastAsSevere. cbn [gender smoking_history hypertension heart_disease age bmi
    HbA1c_level blood_glucose_level healthy].
  repeat split; try reflexivity. intros H. vm_compute in H. discriminate H.
Defined.

(** ** The confidence score and its display *)

Lemma confidence_display (i : RiskPredictionInput) : confidenceDisplay i = true.
Proof.
  cbv beta delta [confidenceDisplay implausibleHbA1c implausibleGlucose implausibleBmi
    implausibleAge calculateConfidenceScore].
  abstract_tests i. vm_compute. reflexivity.
Qed.

Lemma confidence_colour (i : RiskPredictionInput) :
  (implausibleHbA1c i = false -> implausibleGlucose i = false ->
   implausibleBmi i = false -> implausibleAge i = false ->
   getConfidenceColor (calculateConfidenceScore i) = "text-green-400")
  /\ (implausibleHbA1c i = true \/ implausibleGlucose i = true ->
      getConfidenceColor (calculateConfidenceScore i) <> "text-green-400")
  /\ (implausibleHbA1c i = true -> implausibleGlucose i = true ->
      getConfidenceColor (calculateConfidenceScore i) = "text-red-400")
  /\ (implausibleHbA1c i = false -> implausibleGlucose i = false ->
      getConfidenceColor (calculateConfidenceScore i) <> "text-red-400").
Proof.
  pose proof (confidence_display i) as H. unfold confidenceDisplay in H. cbv zeta in H.
  destruct (implausibleHbA1c i), (implausibleGlucose i), (implausibleBmi i),
    (implausibleAge i); cbn [andb orb negb] in H;
    repeat (apply andb_prop in H; destruct H as [H ?]);
    repeat match goal with
    | Hc : negb (String.eqb _ _) = true |- _ =>
        apply negb_true_iff in Hc; apply String.eqb_neq in Hc
    | Hc : String.eqb _ _ = true |- _ => apply String.eqb_eq in Hc
    end;
    repeat split; intros; try discriminate; try assumption;
    try match goal with Hor : _ \/ _ |- _ => destruct Hor; discriminate end.
Qed.

(** The colour of the confidence score: green when no value is implausible;
    never green when the HbA1c or the glucose level is implausible, and red
    when both are; never red when both are plausible, whatever BMI and age. *)
Theorem confidence_colour_follows_plausibility
  (supabase : Supabase) (i : RiskPredictionInput) :
  exists r, calculateRisk supabase i = JS.Returned r
    /\ (implausibleHbA1c i = false -> implausibleGlucose i = false ->
        implausibleBmi i = false -> implausibleAge i = false ->
        getConfidenceColor (confidence_score r) = "text-green-400")
    /\ (implausibleHbA1c i = true \/ implausibleGlucose i = true ->
        getConfidenceColor (confidence_score r) <> "text-green-400")
    /\ (implausibleHbA1c i = true -> implausibleGlucose i = true ->
        getConfidenceColor (confidence_score r) = "text-red-400")
    /\ (implausibleHbA1c i = false -> implausibleGlucose i = false ->
        getConfidenceColor (confidence_score r) <> "text-red-400").
Proof.
  exists (calculateRisk_result i). split; [apply calculateRisk_returns|].
  exact (confidence_colour i).
Qed.

(** ** The assessment form *)

Lemma is_nan_eq (x : float) : is_nan x = true -> x = nan.
Proof.
  unfold is_nan. rewrite FloatAxioms.eqb_spec. intros H.
  apply Prim2SF_inj. change (Prim2SF nan) with S754_nan.
  destruct (Prim2SF x) as [s|s| |s m e]; try reflexivity; exfalso; revert H;
    unfold SFeqb, SFcompare; try (destruct s; discriminate).
  destruct s; rewrite Z.compare_refl, Pos.compare_cont_refl; discriminate.
Qed.

Section FormProperties.

Variables parseFloat parseInt : string -> JS.number.

Lemma handleSubmit_assess (bmiState : option JS.number) (form : AssessmentForm)
  (input : RiskPredictionInput) :
  handleSubmit parseFloat parseInt bmiState form = Assess input ->
  form_patient_id form <> "" /\ form_HbA1c_level form <> ""
  /\ form_blood_glucose_level form <> ""
  /\ implausibleHbA1c input = false /\ implausibleGlucose input = false
  /\ input =
     {| patient_id := form_patient_id form;
        age := parseInt (form_age form);
        gender := if String.eqb (form_gender form) "male" then 1 else 0;
        bmi := JS.or_zero bmiState;
        hypertension := if form_hypertension form then 1 else 0;
        heart_disease := if form_heart_disease form then 1 else 0;
        smoking_history := form_smoking_history form;
        HbA1c_level := parseFloat (form_HbA1c_level form);
        blood_glucose_level := parseInt (form_blood_glucose_level form) |}.
Proof.
  unfold handleSubmit. cbv zeta.
  cbn [requiredFields filter formField String.eqb Ascii.eqb Bool.eqb].
  destruct (String.eqb (form_patient_id form) "") eqn:Hp;
    [destruct (String.eqb (form_age form) ""), (String.eqb (form_gender form) ""),
       (String.eqb (form_height form) ""), (String.eqb (form_weight form) ""),
       (String.eqb (form_HbA1c_level form) ""),
       (String.eqb (form_blood_glucose_level form) ""); discriminate|].
  destruct (String.eqb (form_HbA1c_level form) "") eqn:Hh;
    [destruct (String.eqb (form_age form) ""), (String.eqb (form_gender form) ""),
       (String.eqb (form_height form) ""), (String.eqb (form_weight form) ""),
       (String.eqb (form_blood_glucose_level form) ""); discriminate|].
  destruct (String.eqb (form_blood_glucose_level form) "") eqn:Hg;
    [destruct (String.eqb (form_age form) ""), (String.eqb (form_gender form) ""),
       (String.eqb (form_height form) ""), (String.eqb (form_weight form) "");
       discriminate|].
  destruct (String.eqb (form_age form) ""), (String.eqb (form_gender form) ""),
    (String.eqb (form_height form) ""), (String.eqb (form_weight form) "");
    try discriminate.
  cbn [List.length Nat.ltb Nat.leb].
  destruct ((parseFloat (form_HbA1c_level form) > 15)
            || (parseFloat (form_HbA1c_level form) < 3)) eqn:Hrange; [discriminate|].
  destruct ((parseInt (form_blood_glucose_level form) > 600)
            || (parseInt (form_blood_glucose_level form) < 50)) eqn:Hrange'; [discriminate|].
  intros H. injection H as <-.
  apply String.eqb_neq in Hp, Hh, Hg.
  repeat split; assumption.
Qed.

(** An assessment that the form lets through has a patient reference, its
    confidence is never displayed in red, and its attributions are flagged as
    risk factors exactly when they have a positive share. *)
Theorem submitted_assessments_are_plausible
  (bmiState : option JS.number) (form : AssessmentForm) (input : RiskPredictionInput)
  (supabase : Supabase) :
  handleSubmit parseFloat parseInt bmiState form = Assess input ->
  patient_id input <> ""
  /\ exists r, calculateRisk supabase input = JS.Returned r
       /\ getConfidenceColor (confidence_score r) <> "text-red-400"
       /\ forall c, In c (feature_contributions r) ->
            risk_factor c = (0 <? contribution c).
Proof.
  intros Hsubmit.
  destruct (handleSubmit_assess _ _ _ Hsubmit) as [Hp [_ [_ [Hh [Hg Hinput]]]]].
  split; [rewrite Hinput; exact Hp|].
  exists (calculateRisk_result input). split; [apply calculateRisk_returns|].
  split; [exact (proj2 (proj2 (proj2 (confidence_colour input))) Hh Hg)|].
  intros c Hin. apply (risk_factor_iff_share input c); [|exact Hin].
  rewrite Hinput. unfold codedAsFlags. cbn [hypertension heart_disease].
  destruct (form_hypertension form), (form_heart_disease form); vm_compute; reflexivity.
Qed.

(** The range check does not stop a HbA1c that is no number: when the
    required fields are filled in and the glucose level passes its check, a
    HbA1c text that parses to NaN is assessed, as a normal HbA1c that
    contributes nothing and is no risk factor. *)
Theorem unparsable_hba1c_is_assessed_as_normal
  (bmiState : option JS.number) (form : AssessmentForm) :
  (forall field, In field requiredFields -> formField form field <> "") ->
  is_nan (parseFloat (form_HbA1c_level form)) = true ->
  (parseInt (form_blood_glucose_level form) > 600)
  || (parseInt (form_blood_glucose_level form) < 50) = false ->
  exists input, handleSubmit parseFloat parseInt bmiState form = Assess input
    /\ is_nan (HbA1c_level input) = true
    /\ generateFeatureDescription hba1cFeature input = "Normal: HbA1c within healthy range"
    /\ isRiskFactor hba1cFeature input = false
    /\ hba1cContribution input = 0
    /\ forall score, addHbA1c input score = score.
Proof.
  intros Hfilled Hnan Hglucose.
  assert (Hfield : forall field, In field requiredFields ->
                     String.eqb (formField form field) "" = false)
    by (intros field Hin; apply String.eqb_neq; exact (Hfilled field Hin)).
  eexists. split.
  - unfold handleSubmit. cbv zeta. cbn [requiredFields filter].
    rewrite !Hfield by (cbn; tauto). cbn [List.length Nat.ltb Nat.leb].
    rewrite (is_nan_eq _ Hnan), Hglucose.
    change ((nan > 15) || (nan < 3)) with false. cbv iota. reflexivity.
  - cbn [HbA1c_level]. split; [reflexivity|].
    unfold generateFeatureDescription, isRiskFactor, hba1cContribution, addHbA1c.
    cbn [hba1cFeature feature_key HbA1c_level String.eqb Ascii.eqb Bool.eqb].
    expose_thresholds.
    change (nan >= 6.5) with false. change (nan >= 5.7) with false.
    change (nan > 6.9) with false. cbv iota. repeat split.
Qed.

End FormProperties.

Lemma submitted_assessments_witness :
  patient_id
    {| patient_id := "P-17"; age := 52; gender := 0; bmi := 24.2; hypertension := 1;
       heart_disease := 0; smoking_history := "never"; HbA1c_level := 5.4;
       blood_glucose_level := 110 |} <> ""
  /\ exists r,
       calculateRisk loggingStore
         {| patient_id := "P-17"; age := 52; gender := 0; bmi := 24.2; hypertension := 1;
            heart_disease := 0; smoking_history := "never"; HbA1c_level := 5.4;
            blood_glucose_level := 110 |} = JS.Returned r
       /\ getConfidenceColor (confidence_score r) <> "text-red-400"
       /\ forall c, In c (feature_contributions r) ->
            risk_factor c = (0 <? contribution c).
Proof.
  apply (submitted_assessments_are_plausible sampleParse sampleParse (Some 24.2)
           (filledForm "5.4" "110")).
  reflexivity.
Defined.

Lemma unparsable_hba1c_witness :
  exists input,
    handleSubmit sampleParse sampleParse (Some 24.2) (filledForm "abc" "110") = Assess input
    /\ is_nan (HbA1c_level input) = true
    /\ generateFeatureDescription hba1cFeature input = "Normal: HbA1c within healthy range"
    /\ isRiskFactor hba1cFeature input = false
    /\ hba1cContribution input = 0
    /\ forall score, addHbA1c input score = score.
Proof.
  apply (unparsable_hba1c_is_assessed_as_normal sampleParse sampleParse (Some 24.2)
           (filledForm "abc" "110")).
  - intros field Hin. cbn in Hin.
    repeat (destruct Hin as [<-|Hin]; [vm_compute; discriminate|]). contradiction.
  - reflexivity.
  - reflexivity.
Defined.

(** ** checkDatabaseTables *)


(** ** The patient history *)

(** The service and the history API read the same query: the service
    returns the rows of the API when the API reports success and nothing
    when it reports an error, so its caller cannot tell a failed query from
    an empty history; a row it returns comes from a query that succeeded. *)
Theorem history_swallows_query_errors (query : QueryOutcome (option (list PredictionLog))) :
  let response := getPatientHistory query in
  getPatientPredictionHistory query
  = match response_data response with Some rows => rows | None => [] end
  /\ (success response = true <-> response_error response = None)
  /\ (success response = false -> getPatientPredictionHistory query = [])
  /\ (getPatientPredictionHistory query <> [] ->
      query = QueryData (Some (getPatientPredictionHistory query))).
Proof.
  destruct query as [thrown|message|[rows|]]; cbn;
    (split; [reflexivity|]);
    (split; [split; intros H; try discriminate H; reflexivity|]);
    (split; [intros H; try discriminate H; reflexivity|]);
    intros H; try (exfalso; apply H; reflexivity); reflexivity.
Qed.

(** ** The level shown in the history *)

Lemma logged_levels_agree (i : RiskPredictionInput) :
  levelsAgree (applyRiskModifiers (calculateBaseRiskScore i) i) = true.
Proof.
  change ((let score := applyRiskModifiers (calculateBaseRiskScore i) i in
           levelsAgree score) = true).
  expose_score. abstract_tests i. vm_compute. reflexivity.
Qed.

(** The history page rates a logged result by its own thresholds: it shows
    "High" exactly when the engine rated the result High or Critical,
    "Moderate" when the engine rated it Moderate, and "Low" only when the
    engine rated it Low; a result that the engine rated Low is shown as
    "Moderate" when its probability is 0.3 or more. *)
Theorem history_level_of_a_logged_result
  (supabase : Supabase) (i : RiskPredictionInput) (uuid now userId : string) :
  exists r, calculateRisk supabase i = JS.Returned r
    /\ let shown := level (getRiskLevel (prediction (predictionLog uuid now userId i r))) in
       (shown = "High" <-> risk_level r = High \/ risk_level r = Critical)
       /\ (risk_level r = Moderate -> shown = "Moderate")
       /\ (shown = "Low" -> risk_level r = Low)
       /\ (risk_level r = Low -> (probability r >= 0.3) = true -> shown = "Moderate").
Proof.
  exists (calculateRisk_result i). split; [apply calculateRisk_returns|].
  cbn [prediction predictionLog]. cbv zeta.
  change (probability (calculateRisk_result i))
    with (applyRiskModifiers (calculateBaseRiskScore i) i).
  change (risk_level (calculateRisk_result i))
    with (determineRiskLevel (applyRiskModifiers (calculateBaseRiskScore i) i)).
  pose proof (logged_levels_agree i) as H. unfold levelsAgree in H. cbv zeta in H.
  set (score := applyRiskModifiers (calculateBaseRiskScore i) i) in *.
  destruct (determineRiskLevel score); apply String.eqb_eq in H; rewrite H.
  - destruct (score >= 0.3);
      repeat split; intros; try discriminate; try reflexivity;
      try match goal with Hor : _ \/ _ |- _ => destruct Hor; discriminate end.
  - repeat split; intros; try discriminate; try reflexivity;
      try match goal with Hor : _ \/ _ |- _ => destruct Hor; discriminate end.
  - repeat split; intros; try discriminate; try reflexivity; tauto.
  - repeat split; intros; try discriminate; try reflexivity; tauto.
Qed.

(** ** The recommendation text *)

Lemma advice_well_formed (i : RiskPredictionInput) (riskLevel : RiskLevel)
  (flaggedConditions : list string) :
  wellFormedAdvice riskLevel
    (existsb (fun flag => JS.includes flag "CRITICAL") flaggedConditions)
    (HbA1c_level i >= 6.5)
    (negb (HbA1c_level i >= 6.5) && (HbA1c_level i >= 5.7))
    (blood_glucose_level i > 200)
    (bmi i >= 30)
    (JS.truthy (hypertension i))
    (String.eqb (smoking_history i) "current")
    (generateRecommendations i riskLevel flaggedConditions) = true.
Proof.
  cbv beta delta [generateRecommendations].
  abstract_bool (existsb (fun flag => JS.includes flag "CRITICAL") flaggedConditions).
  abstract_tests i.
  destruct riskLevel; vm_compute; reflexivity.
Qed.

Lemma urgent_iff_critical_combination (i : RiskPredictionInput) :
  existsb (fun flag => JS.includes flag "CRITICAL") (checkFlaggedConditions i)
  = (blood_glucose_level i > 200) && (HbA1c_level i >= 6.5).
Proof.
  apply eqb_prop.
  cbv beta delta [checkFlaggedConditions]. abstract_tests i. vm_compute. reflexivity.
Qed.

Lemma sameLevel_eq (a b : RiskLevel) : sameLevel a b = true <-> a = b.
Proof. destruct a, b; cbn; split; intros H; try discriminate H; reflexivity. Qed.

Lemma result_advice (i : RiskPredictionInput) :
  wellFormedAdvice (risk_level (calculateRisk_result i))
    ((blood_glucose_level i > 200) && (HbA1c_level i >= 6.5))
    (HbA1c_level i >= 6.5)
    (negb (HbA1c_level i >= 6.5) && (HbA1c_level i >= 5.7))
    (blood_glucose_level i > 200)
    (bmi i >= 30)
    (JS.truthy (hypertension i))
    (String.eqb (smoking_history i) "current")
    (recommendations (calculateRisk_result i)) = true.
Proof.
  rewrite <- urgent_iff_critical_combination. apply advice_well_formed.
Qed.

(** The recommendation text of a result has no white space at either end
    and closes with the general lifestyle advice; it opens with the urgent
    advice exactly when the CRITICAL flag is among the flags; and of the four
    consultation clauses it holds the one of the risk level of the result
    and no other. *)
Theorem recommendations_follow_level_and_flags
  (supabase : Supabase) (i : RiskPredictionInput) :
  exists r, calculateRisk supabase i = JS.Returned r
    /\ JS.trim (recommendations r) = recommendations r
    /\ endsWith (recommendations r) closingAdvice = true
    /\ (String.prefix urgentAdvice (recommendations r) = true
        <-> In criticalFlag (flagged_conditions r))
    /\ (forall level,
          JS.includes (recommendations r) (consultation level) = true
          <-> level = risk_level r).
Proof.
  exists (calculateRisk_result i). split; [apply calculateRisk_returns|].
  pose proof (result_advice i) as H. unfold wellFormedAdvice in H.
  repeat (apply andb_prop in H; destruct H as [H ?]).
  split; [apply String.eqb_eq; assumption|]. split; [assumption|]. split.
  - change (flagged_conditions (calculateRisk_result i)) with (checkFlaggedConditions i).
    rewrite critical_flag_iff.
    match goal with Hu : Bool.eqb (String.prefix _ _) _ = true |- _ =>
      apply eqb_prop in Hu; rewrite Hu end.
    reflexivity.
  - intros level.
    match goal with Hl : forallb _ _ = true |- _ =>
      pose proof (proj1 (forallb_forall _ _) Hl level) as Hlevel end.
    assert (Hin : In level [Low; Moderate; High; Critical])
      by (destruct level; cbn; tauto).
    specialize (Hlevel Hin). apply eqb_prop in Hlevel. rewrite Hlevel.
    apply sameLevel_eq.
Qed.

(** The recommendation text names a condition exactly when the input has
    it: likely diabetes for an HbA1c of 6.5 or more, prediabetes for one from
    5.7 up to 6.5, elevated glucose above 200, weight management for a BMI
    of 30 or more, blood pressure for hypertension and smoking cessation
    for a current smoker. *)
Theorem recommendations_name_the_conditions
  (supabase : Supabase) (i : RiskPredictionInput) :
  exists r, calculateRisk supabase i = JS.Returned r
    /\ JS.includes (recommendations r) "Diabetes diagnosis likely" = (HbA1c_level i >= 6.5)
    /\ JS.includes (recommendations r) "Prediabetes detected"
       = negb (HbA1c_level i >= 6.5) && (HbA1c_level i >= 5.7)
    /\ JS.includes (recommendations r) "Elevated blood glucose requires immediate attention"
       = (blood_glucose_level i > 200)
    /\ JS.includes (recommendations r) "Weight management through diet and exercise"
       = (bmi i >= 30)
    /\ JS.includes (recommendations r) "Blood pressure management is essential"
       = JS.truthy (hypertension i)
    /\ JS.includes (recommendations r) "Smoking cessation is strongly recommended"
       = String.eqb (smoking_history i) "current".
Proof.
  exists (calculateRisk_result i). split; [apply calculateRisk_returns|].
  pose proof (result_advice i) as H. unfold wellFormedAdvice in H.
  repeat (apply andb_prop in H; destruct H as [H ?]).
  repeat split; apply eqb_prop; assumption.
Qed.

(** ** Score and modifiers *)

Lemma score_builds_up (i : RiskPredictionInput) : scoreBuildsUp i = true.
Proof.
  cbv beta delta [scoreBuildsUp modified anyRisk]. expose_score.
  abstract_tests i. vm_compute. reflexivity.
Qed.

(** The modifiers of Stage B never lower the score of Stage A: the final
    probability is at least the base score, and it is the base score when
    none of the four modifier conditions holds. *)
Theorem modifiers_only_raise_the_score (supabase : Supabase) (i : RiskPredictionInput) :
  exists r, calculateRisk supabase i = JS.Returned r
    /\ (calculateBaseRiskScore i <=? probability r) = true
    /\ (modified i = false -> probability r = calculateBaseRiskScore i).
Proof.
  exists (calculateRisk_result i). split; [apply calculateRisk_returns|].
  change (probability (calculateRisk_result i))
    with (applyRiskModifiers (calculateBaseRiskScore i) i).
  pose proof (score_builds_up i) as H. unfold scoreBuildsUp in H. cbv zeta in H.
  repeat (apply andb_prop in H; destruct H as [H ?]).
  split; [assumption|].
  intros Hnone.
  match goal with Hm : (if modified i then _ else _) = true |- _ =>
    rewrite Hnone in Hm; apply FloatAxioms.Leibniz.eqb_spec in Hm; exact Hm end.
Qed.

Lemma no_risk_tests (i : RiskPredictionInput) :
  anyRisk i = false ->
  (HbA1c_level i >= 6.5) = false /\ (HbA1c_level i > 6.9) = false
  /\ (HbA1c_level i >= 5.7) = false
  /\ (blood_glucose_level i >= 200) = false /\ (blood_glucose_level i >= 126) = false
  /\ (blood_glucose_level i > 200) = false
  /\ (bmi i >= 35) = false /\ (bmi i >= 30) = false
  /\ (age i >= 45) = false
  /\ JS.truthy (hypertension i) = false
  /\ String.eqb (smoking_history i) "current" = false.
Proof.
  unfold anyRisk. intros H.
  pose proof (gt_implies_ge (blood_glucose_level i) 200 eq_refl) as Hgt.
  repeat (apply orb_false_elim in H; destruct H as [H ?]).
  destruct (blood_glucose_level i > 200);
    [specialize (Hgt eq_refl); congruence|].
  repeat split; assumption.
Qed.

(** A result with probability 0 is clean: it is Negative and Low, it has no
    flag, every attribution has the share 0 and none is a risk factor, and
    its recommendation is the routine advice alone. *)
Theorem zero_probability_is_a_clean_result
  (supabase : Supabase) (i : RiskPredictionInput) (r : RiskPredictionResult) :
  calculateRisk supabase i = JS.Returned r ->
  (probability r =? 0) = true ->
  prediction_result r = Negative
  /\ risk_level r = Low
  /\ flagged_conditions r = []
  /\ (forall c, In c (feature_contributions r) ->
        (contribution c =? 0) = true /\ risk_factor c = false)
  /\ recommendations r = routineAdvice.
Proof.
  intros Hr Hzero. apply calculateRisk_inv in Hr. subst r.
  change (probability (calculateRisk_result i))
    with (applyRiskModifiers (calculateBaseRiskScore i) i) in Hzero.
  pose proof (score_builds_up i) as H. unfold scoreBuildsUp in H. cbv zeta in H.
  repeat (apply andb_prop in H; destruct H as [H ?]).
  match goal with Hs : Bool.eqb (_ =? 0) _ = true, Hb : Bool.eqb (calculateBaseRiskScore i =? 0) _ = true |- _ =>
    apply eqb_prop in Hs; apply eqb_prop in Hb; rewrite Hzero in Hs;
    assert (Hnone : anyRisk i = false) by (destruct (anyRisk i); [discriminate Hs|reflexivity]);
    rewrite Hnone in Hb; cbn in Hb; rename Hb into Hbase
  end.
  destruct (no_risk_tests i Hnone)
    as [H65 [H69 [H57 [H200 [H126 [Hgt [H35 [H30 [H45 [Hhyp Hsmoke]]]]]]]]]].
  assert (Hflags : checkFlaggedConditions i = []).
  { unfold checkFlaggedConditions.
    rewrite H65, H69, H57, H200, H126, Hgt, H35, H30, H45. cbn.
    rewrite ?andb_false_r. reflexivity. }
  assert (Hscore : applyRiskModifiers (calculateBaseRiskScore i) i = 0).
  { clear - Hzero H65 H69 H57 H200 H126 Hgt H35 H30 H45 Hhyp Hsmoke Hnone.
    unfold anyRisk in Hnone.
    repeat (apply orb_false_elim in Hnone; destruct Hnone as [Hnone ?]).
    unfold applyRiskModifiers, calculateBaseRiskScore, addHbA1c, addBloodGlucose, addBmi,
      addAge, addHypertension, addHeartDisease, addSmoking, addGender.
    expose_thresholds.
    repeat match goal with Ht : _ = false |- _ => rewrite Ht; clear Ht end.
    cbn [andb]. rewrite ?andb_false_r. vm_compute. reflexivity. }
  split; [|split; [|split; [|split]]].
  - destruct (prediction_result (calculateRisk_result i)) eqn:Hlabel; [|reflexivity].
    apply label_positive_iff in Hlabel. destruct Hlabel as [Hforce|Hhalf].
    + apply shouldForcePositive_spec in Hforce.
      destruct Hforce as [[Ha _]|[[Ha _]|[Ha|Ha]]]; congruence.
    + change (probability (calculateRisk_result i))
        with (applyRiskModifiers (calculateBaseRiskScore i) i) in Hhalf.
      rewrite Hscore in Hhalf. vm_compute in Hhalf. discriminate Hhalf.
  - change (risk_level (calculateRisk_result i))
      with (determineRiskLevel (applyRiskModifiers (calculateBaseRiskScore i) i)).
    rewrite Hscore. vm_compute. reflexivity.
  - exact Hflags.
  - intros c Hin.
    change (feature_contributions (calculateRisk_result i))
      with (generateFeatureContributions (calculateSHAPValues i) i) in Hin.
    assert (Hsv : calculateSHAPValues i = zeroShapValues).
    { unfold calculateSHAPValues. cbv zeta. unfold JS.strict_eq at 1.
      rewrite Hbase. reflexivity. }
    destruct (entry_characterised i c Hin) as [feature [Hf [_ [Hget [Hrisk _]]]]].
    rewrite Hsv in Hget.
    assert (Hshare : contribution c = 0).
    { repeat (destruct Hf as [<-|Hf]; [cbn in Hget; congruence|]). contradiction. }
    rewrite Hshare. split; [vm_compute; reflexivity|].
    destruct (risk_factor c); [|reflexivity].
    specialize (Hrisk eq_refl). rewrite Hshare in Hrisk. vm_compute in Hrisk.
    discriminate Hrisk.
  - change (recommendations (calculateRisk_result i))
      with (generateRecommendations i
              (determineRiskLevel (applyRiskModifiers (calculateBaseRiskScore i) i))
              (checkFlaggedConditions i)).
    rewrite Hscore, Hflags. unfold generateRecommendations.
    rewrite H65, H57, Hgt, H30, Hhyp, Hsmoke. vm_compute. reflexivity.
Qed.

Lemma zero_probability_witness :
  prediction_result (calculateRisk_result (healthy 5 85 0)) = Negative
  /\ risk_level (calculateRisk_result (healthy 5 85 0)) = Low
  /\ flagged_conditions (calculateRisk_result (healthy 5 85 0)) = []
  /\ (forall c, In c (feature_contributions (calculateRisk_result (healthy 5 85 0))) ->
        (contribution c =? 0) = true /\ risk_factor c = false)
  /\ recommendations (calculateRisk_result (healthy 5 85 0)) = routineAdvice.
Proof.
  apply (zero_probability_is_a_clean_result loggingStore (healthy 5 85 0));
    reflexivity.
Defined.

(** ** The confidence interval, again *)

Lemma interval_in_unit (i : RiskPredictionInput) :
  intervalInUnit (applyRiskModifiers (calculateBaseRiskScore i) i)
    (calculateConfidenceScore i) = true.
Proof.
  expose_score.
  abstract_bool ((HbA1c_level i > 15) || (HbA1c_level i < 3)).
  abstract_bool ((blood_glucose_level i > 600) || (blood_glucose_level i < 50)).
  abstract_bool ((bmi i > 60) || (bmi i < 15)).
  abstract_bool ((age i > 100) || (age i < 10)).
  abstract_tests i. vm_compute. reflexivity.
Qed.

(** The confidence interval of a result lies in [0,1]: 0 <= lower <= upper
    <= 1, and it is at most 0.5 wide. *)
Theorem confidence_interval_in_unit_range (supabase : Supabase) (i : RiskPredictionInput) :
  exists r, calculateRisk supabase i = JS.Returned r
    /\ (0 <=? lower (confidence_interval r)) = true
    /\ (lower (confidence_interval r) <=? upper (confidence_interval r)) = true
    /\ (upper (confidence_interval r) <=? 1) = true
    /\ (upper (confidence_interval r) - lower (confidence_interval r) <=? 0.5) = true.
Proof.
  exists (calculateRisk_result i). split; [apply calculateRisk_returns|].
  pose proof (interval_in_unit i) as H. unfold intervalInUnit in H. cbv zeta in H.
  repeat (apply andb_prop in H; destruct H as [H ?]).
  repeat split; assumption.
Qed.
